(** * The X402 payment gate of [app/api/weather/route.ts]

    A shallow embedding of the weather route of the AxiomKit showcase: the
    challenge issuer [generatePaymentChallenge], the payment verifier
    [verifyPayment] and the request handler [GET], together with the parts
    of the JavaScript runtime and of viem that they rely on. *)

From Stdlib Require Import ZArith List String Ascii Bool PrimFloat Lia.
From Stdlib Require Import DecimalString DecimalPos DecimalZ.
Import ListNotations.
Open Scope string_scope.

Set Implicit Arguments.
Set Warnings "-register-all".

(* ================================================================== *)
(** * JavaScript values *)
(* ================================================================== *)

Module JS.

(** What [JSON.parse] can return, plus [undefined] for an absent
    property. Numbers are IEEE doubles, as in the language. Arrays and
    objects are reference values: the embedding keeps their contents and
    treats two of them as never identical (see [strict_equal]). *)
Inductive value : Type :=
| VUndefined
| VNull
| VBool (b : bool)
| VNum (x : float)
| VStr (s : string)
| VArr (items : list value)
| VObj (props : list (string * value)).

(** [ToBoolean]: what [if (v)] and [!v] look at. *)
Definition truthy (v : value) : bool :=
  match v with
  | VUndefined | VNull => false
  | VBool b => b
  | VNum x => negb (PrimFloat.eqb x 0 || PrimFloat.is_nan x)
  | VStr s => negb (s =? "")
  | VArr _ | VObj _ => true
  end.

(** [a === b]. The route only ever compares a parsed value with a
    primitive literal, and looks up a [Map] under a key that was parsed
    during the same call; an array or object on either side is therefore
    never the same reference as the other side. *)
Definition strict_equal (a b : value) : bool :=
  match a, b with
  | VUndefined, VUndefined => true
  | VNull, VNull => true
  | VBool x, VBool y => Bool.eqb x y
  | VNum x, VNum y => PrimFloat.eqb x y
  | VStr x, VStr y => (x =? y)
  | _, _ => false
  end.

(** [SameValueZero], the key comparison of [Map]: as [===], except that
    [NaN] equals itself. *)
Definition same_value_zero (a b : value) : bool :=
  match a, b with
  | VNum x, VNum y =>
      PrimFloat.eqb x y || (PrimFloat.is_nan x && PrimFloat.is_nan y)
  | _, _ => strict_equal a b
  end.

(** Values that are compared by content. *)
Definition primitive (v : value) : bool :=
  match v with
  | VArr _ | VObj _ => false
  | _ => true
  end.

(** An [Error] object; the route reads only [message]. *)
Record Error : Type := { message : string }.

(** The result of running a piece of code: a value, or a thrown error. *)
Inductive outcome (A : Type) : Type :=
| Returns (a : A)
| Throws (e : Error).
Arguments Returns {A} a.
Arguments Throws {A} e.

(** [v.name] and the properties bound by [const { name } = v]. Reading a
    property of [null] or [undefined] throws a [TypeError]; a primitive or
    an array has none of the properties the route reads ([x402Version],
    [scheme], [network], [payload], [txHash], [amount], [from]); an object
    yields its own property or [undefined]. *)
Fixpoint own_property (props : list (string * value)) (name : string) : value :=
  match props with
  | [] => VUndefined
  | (k, v) :: rest => if (k =? name) then v else own_property rest name
  end.

Definition get_property (v : value) (name : string) : outcome value :=
  match v with
  | VUndefined =>
      Throws {| message :=
        "Cannot read properties of undefined (reading '" ++ name ++ "')" |}
  | VNull =>
      Throws {| message :=
        "Cannot read properties of null (reading '" ++ name ++ "')" |}
  | VObj props => Returns (own_property props name)
  | _ => Returns VUndefined
  end.

(** [String.prototype.toLowerCase], on the ASCII range (addresses are
    hexadecimal ASCII). *)
Definition lower_ascii (c : ascii) : ascii :=
  let n := nat_of_ascii c in
  if (65 <=? n)%nat && (n <=? 90)%nat then ascii_of_nat (n + 32) else c.

Fixpoint toLowerCase (s : string) : string :=
  match s with
  | EmptyString => EmptyString
  | String c rest => String (lower_ascii c) (toLowerCase rest)
  end.

(** [s.substring(start)]: the characters from index [start] on, the empty
    string when [s] is shorter. *)
Fixpoint substring (start : nat) (s : string) : string :=
  match start, s with
  | O, _ => s
  | S n, EmptyString => EmptyString
  | S n, String _ rest => substring n rest
  end.

(** Decimal rendering of an integer: [String(n)] for an integer-valued
    number below 1e21, and [toString()] of a [bigint]. *)
Definition integer_toString (n : Z) : string :=
  NilEmpty.string_of_int (Z.to_int n).

(** ** [Map]

    Entries in insertion order; keys compared with [SameValueZero]. *)
Section MapOf.
Variable V : Type.

Definition Map : Type := list (value * V).

Definition Map_empty : Map := [].

Fixpoint Map_get (m : Map) (k : value) : option V :=
  match m with
  | [] => None
  | (k', v) :: rest => if same_value_zero k' k then Some v else Map_get rest k
  end.

Definition Map_has (m : Map) (k : value) : bool :=
  match Map_get m k with Some _ => true | None => false end.

Fixpoint Map_set (m : Map) (k : value) (v : V) : Map :=
  match m with
  | [] => [(k, v)]
  | (k', v') :: rest =>
      if same_value_zero k' k then (k', v) :: rest
      else (k', v') :: Map_set rest k v
  end.

End MapOf.

End JS.

(* ================================================================== *)
(** * viem *)
(* ================================================================== *)

Module Viem.

(** The receipt that [publicClient.getTransactionReceipt] resolves to; the
    route reads [status] and [to] ([to] is [null] for a contract
    creation). *)
Inductive ReceiptStatus : Type := success | reverted.

Record TransactionReceipt : Type := {
  status : ReceiptStatus;
  to : option string
}.

Definition is_success (s : ReceiptStatus) : bool :=
  match s with success => true | reverted => false end.

Definition is_digit (c : ascii) : bool :=
  let n := nat_of_ascii c in (48 <=? n)%nat && (n <=? 57)%nat.

Fixpoint all_digits (s : string) : bool :=
  match s with
  | EmptyString => true
  | String c rest => is_digit c && all_digits rest
  end.

(** [value.split('.')], for a literal with at most one point: the part
    before the first point and, when there is a point, the part after. *)
Fixpoint split_point (s : string) : string * option string :=
  match s with
  | EmptyString => (EmptyString, None)
  | String c rest =>
      if Ascii.eqb c "." then (EmptyString, Some rest)
      else let (i, f) := split_point rest in (String c i, f)
  end.

(** [fraction.replace(/(0+)$/, '')] *)
Fixpoint trim_trailing_zeros (s : string) : string :=
  match s with
  | EmptyString => EmptyString
  | String c rest =>
      let rest' := trim_trailing_zeros rest in
      if Ascii.eqb c "0" && (rest' =? "") then EmptyString else String c rest'
  end.

(** [fraction.padEnd(n, '0')] *)
Definition padEnd_zeros (n : nat) (s : string) : string :=
  s ++ string_of_list_ascii (repeat "0"%char (n - String.length s)).

(** [BigInt(digits)] for a string of decimal digits (the empty string
    gives [0n]). *)
Fixpoint digits_value (acc : Z) (s : string) : Z :=
  match s with
  | EmptyString => acc
  | String c rest =>
      digits_value (10 * acc + Z.of_nat (nat_of_ascii c - 48)) rest
  end.

(** Modelled from the spec: [parseUnits] belongs to viem, a dependency
    whose code is not among the repository's sources. Its contract is the
    conversion of a decimal literal into an integer count of the asset's
    smallest unit (0.001 of a 6-decimal asset is 1000). The model follows
    viem's steps (sign, split at the point, trailing zeros trimmed,
    fraction padded to [decimals] digits, digits read as an integer) for
    literals with at most [decimals] significant fractional digits.
    [None] stands for everything else: a literal viem rejects with an
    exception, and a longer fraction, which viem rounds through a
    double. *)
Definition parseUnits (value : string) (decimals : nat) : option Z :=
  let (integer0, point) := split_point value in
  let fraction0 := match point with Some f => f | None => "0" end in
  let negative := String.prefix "-" integer0 in
  let integer := if negative then JS.substring 1 integer0 else integer0 in
  if all_digits integer && all_digits fraction0 then
    let fraction := trim_trailing_zeros fraction0 in
    if (String.length fraction <=? decimals)%nat then
      let digits := integer ++ padEnd_zeros decimals fraction in
      if negative then
        if (digits =? "") then None else Some (- digits_value 0 digits)%Z
      else Some (digits_value 0 digits)
    else None
  else None.

End Viem.

(* ================================================================== *)
(** * [lib/axiom-config.ts]: the X402 configuration *)
(* ================================================================== *)

Module Config.

Record t : Type := {
  network : string;
  chainId : Z;
  asset : string;
  assetAddress : string;
  assetDecimals : nat;
  recipient : string;
  rpcUrl : string
}.

End Config.

Definition X402_CONFIG : Config.t := {|
  Config.network := "sei-testnet";
  Config.chainId := 1328;
  Config.asset := "USDC";
  Config.assetAddress := "0x4fCF1784B31630811181f670Aea7A7bEF803eaED";
  Config.assetDecimals := 6;
  Config.recipient := "0x9dC2aA0038830c052253161B1EE49B9dD449bD66";
  Config.rpcUrl := "https://evm-rpc-testnet.sei-apis.com"
|}.

(* ================================================================== *)
(** * [app/api/weather/route.ts] *)
(* ================================================================== *)

Module Route.

Import JS.

(** ** Data *)

(** The value stored in [verifiedPayments] under a transaction hash. *)
Record VerifiedPayment : Type := {
  timestamp : Z;
  amount : value;
  from : value
}.

(** The object [verifyPayment] resolves to. Its properties differ from one
    exit to the other; an absent property is [None]. *)
Record VerificationResult : Type := {
  isValid : bool;
  reason : option string;
  cached : option bool;
  txHash : option value
}.

Record Extra : Type := {
  name : string;
  version : string;
  reference : string
}.

Record PaymentOption : Type := {
  scheme : string;
  network : string;
  maxAmountRequired : string;
  resource : string;
  description : string;
  mimeType : string;
  payTo : string;
  maxTimeoutSeconds : Z;
  asset : string;
  extra : Extra
}.

Record PaymentChallenge : Type := {
  x402Version : Z;
  accepts : list PaymentOption;
  error : option string
}.

Module Weather.
Record t : Type := {
  location : string;
  temperature : string;
  conditions : string;
  humidity : string;
  windSpeed : string;
  timestamp : Z;  (* the instant of [new Date()], in milliseconds *)
  payment : VerificationResult
}.
End Weather.

Inductive Body : Type :=
| ChallengeBody (challenge : PaymentChallenge)
| WeatherBody (weatherData : Weather.t).

Record NextResponse : Type := {
  status : Z;
  body : Body
}.

(** The part of the request that [GET] reads: the result of
    [req.headers.get("x-payment")], [None] for [null]. *)
Record NextRequest : Type := {
  header_x_payment : option string
}.

(** ** The process and its surroundings

    [World] is what one server process carries from one request to the
    next: the module-level [verifiedPayments] map and, as bookkeeping of
    the embedding, the hashes sent to the ledger so far and the number of
    clock readings and random draws made. [Host] is everything the route
    calls but does not define: decoding of the header, the ledger, the
    clock and the random generator, each answer indexed by how many were
    asked before. Requests are run one at a time. The [console] calls
    are left out. *)
Record World : Type := {
  verifiedPayments : Map VerifiedPayment;
  receiptQueries : list value;
  clockReads : nat;
  randomDraws : nat
}.

Record Host : Type := {
  (** [JSON.parse(Buffer.from(header, "base64").toString())] *)
  JSON_parse_base64 : string -> outcome value;
  (** [publicClient.getTransactionReceipt({ hash })], [None] for a falsy
      receipt *)
  ledger : nat -> value -> outcome (option Viem.TransactionReceipt);
  (** [Date.now()] *)
  clock : nat -> Z;
  (** [Math.random().toString(36)] *)
  random36 : nat -> string
}.

Definition initial : World := {|
  verifiedPayments := Map_empty VerifiedPayment;
  receiptQueries := [];
  clockReads := 0;
  randomDraws := 0
|}.

(** ** Effects *)

Definition M (A : Type) : Type := Host -> World -> outcome A * World.

Definition ret {A : Type} (a : A) : M A := fun _ w => (Returns a, w).

Definition throw {A : Type} (e : Error) : M A := fun _ w => (Throws e, w).

Definition bind {A B : Type} (m : M A) (k : A -> M B) : M B :=
  fun h w =>
    match m h w with
    | (Returns a, w') => k a h w'
    | (Throws e, w') => (Throws e, w')
    end.

(** [try { body } catch (error) { handler }] *)
Definition try_catch {A : Type} (body : M A) (handler : Error -> M A) : M A :=
  fun h w =>
    match body h w with
    | (Returns a, w') => (Returns a, w')
    | (Throws e, w') => handler e h w'
    end.

Definition lift {A : Type} (o : outcome A) : M A := fun _ w => (o, w).

Declare Scope route_scope.
Delimit Scope route_scope with route.
Notation "x <- m ;; k" := (bind m (fun x => k))
  (at level 61, m at next level, right associativity) : route_scope.
Notation "m ;;; k" := (bind m (fun _ => k))
  (at level 61, right associativity) : route_scope.
Open Scope route_scope.

(** World updates. *)
Definition tick (w : World) : World :=
  {| verifiedPayments := verifiedPayments w;
     receiptQueries := receiptQueries w;
     clockReads := S (clockReads w);
     randomDraws := randomDraws w |}.

Definition draw (w : World) : World :=
  {| verifiedPayments := verifiedPayments w;
     receiptQueries := receiptQueries w;
     clockReads := clockReads w;
     randomDraws := S (randomDraws w) |}.

Definition queried (hash : value) (w : World) : World :=
  {| verifiedPayments := verifiedPayments w;
     receiptQueries := hash :: receiptQueries w;
     clockReads := clockReads w;
     randomDraws := randomDraws w |}.

Definition stored (key : value) (entry : VerifiedPayment) (w : World)
  : World :=
  {| verifiedPayments := Map_set (verifiedPayments w) key entry;
     receiptQueries := receiptQueries w;
     clockReads := clockReads w;
     randomDraws := randomDraws w |}.

Definition parse_header (paymentHeader : string) : M value :=
  fun h w => (JSON_parse_base64 h paymentHeader, w).

Definition Date_now : M Z :=
  fun h w => (Returns (clock h (clockReads w)), tick w).

Definition Math_random_toString36 : M string :=
  fun h w => (Returns (random36 h (randomDraws w)), draw w).

Definition getTransactionReceipt (hash : value)
  : M (option Viem.TransactionReceipt) :=
  fun h w => (ledger h (List.length (receiptQueries w)) hash, queried hash w).

Definition verifiedPayments_has (key : value) : M bool :=
  fun _ w => (Returns (Map_has (verifiedPayments w) key), w).

Definition verifiedPayments_set (key : value) (entry : VerifiedPayment)
  : M unit :=
  fun _ w => (Returns tt, stored key entry w).

(** ** [generatePaymentChallenge] *)

(** [`sei-${Date.now()}-${Math.random().toString(36).substring(7)}`],
    from the clock reading and the base-36 rendering of the random
    number. *)
Definition make_reference (now : Z) (random : string) : string :=
  "sei-" ++ integer_toString now ++ "-" ++ substring 7 random.

(** [parseUnits("0.001", X402_CONFIG.assetDecimals)]. With the configured
    six decimals the literal needs no rounding and the second branch is
    never taken. *)
Definition amount_in_units : M Z :=
  match Viem.parseUnits "0.001" (Config.assetDecimals X402_CONFIG) with
  | Some units => ret units
  | None => throw {| message := "Number is not a valid decimal number." |}
  end.

Definition generatePaymentChallenge : M PaymentChallenge :=
  now <- Date_now ;;
  random <- Math_random_toString36 ;;
  let reference := make_reference now random in
  amountInUnits <- amount_in_units ;;
  ret {|
    x402Version := 1;
    accepts := [
      {| scheme := "exact";
         network := Config.network X402_CONFIG;
         maxAmountRequired := integer_toString amountInUnits;
         resource := "/api/weather";
         description := "Get current weather data";
         mimeType := "application/json";
         payTo := Config.recipient X402_CONFIG;
         maxTimeoutSeconds := 300;
         asset := Config.assetAddress X402_CONFIG;
         extra := {|
           name := Config.asset X402_CONFIG;
           version := "2";
           reference := reference
         |}
      |}
    ];
    error := None
  |}.

(** ** [verifyPayment] *)

Definition invalid (why : string) : VerificationResult :=
  {| isValid := false; reason := Some why; cached := None; txHash := None |}.

(** [const { x402Version, scheme, network, payload } = paymentData] *)
Definition destructure (paymentData : value)
  : outcome (value * value * value * value) :=
  match get_property paymentData "x402Version" with
  | Throws _ =>
      Throws {| message :=
        "Cannot destructure property 'x402Version' of 'paymentData' as it is "
        ++ match paymentData with VNull => "null" | _ => "undefined" end
        ++ "." |}
  | Returns x402Version =>
      match get_property paymentData "scheme",
            get_property paymentData "network",
            get_property paymentData "payload" with
      | Returns scheme, Returns network, Returns payload =>
          Returns (x402Version, scheme, network, payload)
      | Throws e, _, _ | _, Throws e, _ | _, _, Throws e => Throws e
      end
  end.

(** [receipt.to?.toLowerCase() === X402_CONFIG.assetAddress.toLowerCase()] *)
Definition isValidTransfer (receipt : Viem.TransactionReceipt) : bool :=
  match Viem.to receipt with
  | None => false
  | Some to => (toLowerCase to =? toLowerCase (Config.assetAddress X402_CONFIG))
  end.

Definition verifyPayment (paymentHeader : string) : M VerificationResult :=
  try_catch
    (paymentData <- parse_header paymentHeader ;;
     fields <- lift (destructure paymentData) ;;
     let '(x402Version, scheme, network, payload) := fields in
     if negb (strict_equal x402Version (VNum 1))
        || negb (strict_equal scheme (VStr "exact"))
        || negb (strict_equal network (VStr (Config.network X402_CONFIG)))
     then ret (invalid "Invalid payment format or network")
     else
       payload_txHash <- lift (get_property payload "txHash") ;;
       if truthy payload_txHash then
         known <- verifiedPayments_has payload_txHash ;;
         if known then
           ret {| isValid := true; reason := None;
                  cached := Some true; txHash := None |}
         else
           receipt <- getTransactionReceipt payload_txHash ;;
           match receipt with
           | None => ret (invalid "Transaction failed or not found")
           | Some receipt =>
               if negb (Viem.is_success (Viem.status receipt)) then
                 ret (invalid "Transaction failed or not found")
               else if isValidTransfer receipt then
                 now <- Date_now ;;
                 payload_amount <- lift (get_property payload "amount") ;;
                 payload_from <- lift (get_property payload "from") ;;
                 verifiedPayments_set payload_txHash
                   {| timestamp := now;
                      amount := payload_amount;
                      from := payload_from |} ;;;
                 ret {| isValid := true; reason := None;
                        cached := None; txHash := Some payload_txHash |}
               else ret (invalid "Invalid transfer details")
           end
       else ret (invalid "No valid payment proof provided"))
    (fun error =>
       ret (invalid ("Verification error: " ++ message error))).

(** ** [GET] *)

Definition json (body : Body) (status : Z) : NextResponse :=
  {| status := status; body := body |}.

(** [verification.reason || "Payment verification failed"] *)
Definition reason_or_default (reason : option string) : string :=
  match reason with
  | None => "Payment verification failed"
  | Some r => if (r =? "") then "Payment verification failed" else r
  end.

Definition with_error (challenge : PaymentChallenge) (e : string)
  : PaymentChallenge :=
  {| x402Version := x402Version challenge;
     accepts := accepts challenge;
     error := Some e |}.

Definition GET (req : NextRequest) : M NextResponse :=
  (* the branch of [if (!paymentHeader)]: header absent, or empty *)
  let no_payment :=
    challenge <- generatePaymentChallenge ;;
    ret (json (ChallengeBody challenge) 402) in
  match header_x_payment req with
  | None => no_payment
  | Some paymentHeader =>
      if (paymentHeader =? "") then no_payment
      else
        verification <- verifyPayment paymentHeader ;;
        if negb (isValid verification) then
          challenge <- generatePaymentChallenge ;;
          let challenge :=
            with_error challenge (reason_or_default (reason verification)) in
          ret (json (ChallengeBody challenge) 402)
        else
          now <- Date_now ;;
          let weatherData :=
            {| Weather.location := "Sei Network";
               Weather.temperature := "99°F";
               Weather.conditions := "Sunny";
               Weather.humidity := "45%";
               Weather.windSpeed := "8 mph";
               Weather.timestamp := now;
               Weather.payment := verification |} in
          ret (json (WeatherBody weatherData) 200)
  end.

(** ** Vocabulary of the statements *)

(** A property of a parsed value that is not [null] ([undefined] when the
    value has no such property). *)
Definition field (v : value) (name : string) : value :=
  match get_property v name with
  | Returns x => x
  | Throws _ => VUndefined
  end.

Definition nullish (v : value) : bool :=
  match v with
  | VUndefined | VNull => true
  | _ => false
  end.

(** The proof names protocol version 1, the scheme ["exact"] and the
    configured network. *)
Definition protocol_match (paymentData : value) : bool :=
  strict_equal (field paymentData "x402Version") (VNum 1)
  && strict_equal (field paymentData "scheme") (VStr "exact")
  && strict_equal (field paymentData "network")
       (VStr (Config.network X402_CONFIG)).

(** A well-formed proof for the transaction [hash]: it passes the protocol
    check and its payload names [hash]. *)
Definition carries (paymentData hash : value) : Prop :=
  nullish paymentData = false
  /\ protocol_match paymentData = true
  /\ get_property (field paymentData "payload") "txHash" = Returns hash
  /\ truthy hash = true.

(** The entry [verifyPayment] stores for a proof, read at clock value
    [now]. *)
Definition entry_of (paymentData : value) (now : Z) : VerifiedPayment :=
  {| timestamp := now;
     amount := field (field paymentData "payload") "amount";
     from := field (field paymentData "payload") "from" |}.

(** Case-insensitive equality of addresses, as the route decides it. *)
Definition same_address (a b : string) : Prop :=
  toLowerCase a = toLowerCase b.

(** The verdict of a call that returned. *)
Definition isValid_of (o : outcome VerificationResult) : option bool :=
  match o with
  | Returns r => Some (isValid r)
  | Throws _ => None
  end.

(** The references carried by a challenge. *)
Definition references (challenge : PaymentChallenge) : list string :=
  map (fun option => reference (extra option)) (accepts challenge).

(** The references of the challenge issued by a process in state [w]
    (none if the issuer threw). *)
Definition issued_references (h : Host) (w : World) : list string :=
  match generatePaymentChallenge h w with
  | (Returns challenge, _) => references challenge
  | (Throws _, _) => []
  end.

(** What a reference is made from: the clock reading and the characters
    of the random number's rendering that the issuer keeps. *)
Definition reference_source (h : Host) (w : World) : Z * string :=
  (clock h (clockReads w), substring 7 (random36 h (randomDraws w))).

(** The faults of a submitted header that make the body of
    [verifyPayment] throw before it looks at the cache or the ledger: the
    header does not decode, the decoded value is [null], or a proof that
    passes the protocol check has no payload object. *)
Inductive proof_fault (h : Host) (paymentHeader : string) : Error -> Prop :=
| fault_decode e :
    JSON_parse_base64 h paymentHeader = Throws e ->
    proof_fault h paymentHeader e
| fault_null paymentData e :
    JSON_parse_base64 h paymentHeader = Returns paymentData ->
    destructure paymentData = Throws e ->
    proof_fault h paymentHeader e
| fault_payload paymentData e :
    JSON_parse_base64 h paymentHeader = Returns paymentData ->
    nullish paymentData = false ->
    protocol_match paymentData = true ->
    get_property (field paymentData "payload") "txHash" = Throws e ->
    proof_fault h paymentHeader e.

(** The two acceptances: [{ isValid: true, cached: true }] and
    [{ isValid: true, txHash }]. *)
Definition valid_cached : VerificationResult :=
  {| isValid := true; reason := None; cached := Some true; txHash := None |}.

Definition valid_fresh (hash : value) : VerificationResult :=
  {| isValid := true; reason := None; cached := None; txHash := Some hash |}.

(** The exits of [verifyPayment], in the order of the code: what each one
    requires of the decoded header, the cache and the ledger, the result
    it returns and the world it leaves. *)
Inductive verify_exit (h : Host) (w : World) (paymentHeader : string)
  : VerificationResult -> World -> Prop :=
| exit_fault e :
    proof_fault h paymentHeader e ->
    verify_exit h w paymentHeader
      (invalid ("Verification error: " ++ message e)) w
| exit_protocol paymentData :
    JSON_parse_base64 h paymentHeader = Returns paymentData ->
    nullish paymentData = false ->
    protocol_match paymentData = false ->
    verify_exit h w paymentHeader
      (invalid "Invalid payment format or network") w
| exit_no_hash paymentData hash :
    JSON_parse_base64 h paymentHeader = Returns paymentData ->
    nullish paymentData = false ->
    protocol_match paymentData = true ->
    get_property (field paymentData "payload") "txHash" = Returns hash ->
    truthy hash = false ->
    verify_exit h w paymentHeader
      (invalid "No valid payment proof provided") w
| exit_cached paymentData hash :
    JSON_parse_base64 h paymentHeader = Returns paymentData ->
    carries paymentData hash ->
    Map_has (verifiedPayments w) hash = true ->
    verify_exit h w paymentHeader valid_cached w
| exit_ledger_fault paymentData hash e :
    JSON_parse_base64 h paymentHeader = Returns paymentData ->
    carries paymentData hash ->
    Map_has (verifiedPayments w) hash = false ->
    ledger h (List.length (receiptQueries w)) hash = Throws e ->
    verify_exit h w paymentHeader
      (invalid ("Verification error: " ++ message e)) (queried hash w)
| exit_not_found paymentData hash :
    JSON_parse_base64 h paymentHeader = Returns paymentData ->
    carries paymentData hash ->
    Map_has (verifiedPayments w) hash = false ->
    ledger h (List.length (receiptQueries w)) hash = Returns None ->
    verify_exit h w paymentHeader
      (invalid "Transaction failed or not found") (queried hash w)
| exit_reverted paymentData hash receipt :
    JSON_parse_base64 h paymentHeader = Returns paymentData ->
    carries paymentData hash ->
    Map_has (verifiedPayments w) hash = false ->
    ledger h (List.length (receiptQueries w)) hash = Returns (Some receipt) ->
    Viem.status receipt = Viem.reverted ->
    verify_exit h w paymentHeader
      (invalid "Transaction failed or not found") (queried hash w)
| exit_destination paymentData hash receipt :
    JSON_parse_base64 h paymentHeader = Returns paymentData ->
    carries paymentData hash ->
    Map_has (verifiedPayments w) hash = false ->
    ledger h (List.length (receiptQueries w)) hash = Returns (Some receipt) ->
    Viem.status receipt = Viem.success ->
    isValidTransfer receipt = false ->
    verify_exit h w paymentHeader
      (invalid "Invalid transfer details") (queried hash w)
| exit_verified paymentData hash receipt :
    JSON_parse_base64 h paymentHeader = Returns paymentData ->
    carries paymentData hash ->
    Map_has (verifiedPayments w) hash = false ->
    ledger h (List.length (receiptQueries w)) hash = Returns (Some receipt) ->
    Viem.status receipt = Viem.success ->
    isValidTransfer receipt = true ->
    verify_exit h w paymentHeader
      (valid_fresh hash)
      (stored hash
         (entry_of paymentData (clock h (clockReads w)))
         (tick (queried hash w))).

End Route.

(* ================================================================== *)
(** * A concrete host

    One server, one ledger and a handful of submitted headers, used to run
    the route on actual inputs. Each header is the base64 text of the JSON
    document that [JSON_parse_base64] maps it to. *)
(* ================================================================== *)

Module Sample.

Import JS Route.

Definition tx_paid : string :=
  "0xa1a1a1a1a1a1a1a1a1a1a1a1a1a1a1a1a1a1a1a1a1a1a1a1a1a1a1a1a1a1a1a1".

Definition tx_elsewhere : string :=
  "0xb2b2b2b2b2b2b2b2b2b2b2b2b2b2b2b2b2b2b2b2b2b2b2b2b2b2b2b2b2b2b2b2".

Definition tx_unreachable : string :=
  "0xd4d4d4d4d4d4d4d4d4d4d4d4d4d4d4d4d4d4d4d4d4d4d4d4d4d4d4d4d4d4d4d4".

Definition payer : string := "0x1111111111111111111111111111111111111111".

Definition other_payer : string := "0x2222222222222222222222222222222222222222".

(** The parsed form of a proof document. *)
Definition proof (network txHash amount from : string) : value :=
  VObj [ ("x402Version", VNum 1);
         ("scheme", VStr "exact");
         ("network", VStr network);
         ("payload", VObj [ ("txHash", VStr txHash);
                            ("amount", VStr amount);
                            ("from", VStr from) ]) ].

Definition header_paid : string :=
  "eyJ4NDAyVmVyc2lvbiI6MSwic2NoZW1lIjoiZXhhY3QiLCJuZXR3b3JrIjoic2Vp"
  ++ "LXRlc3RuZXQiLCJwYXlsb2FkIjp7InR4SGFzaCI6IjB4YTFhMWExYTFhMWExYTFh"
  ++ "MWExYTFhMWExYTFhMWExYTFhMWExYTFhMWExYTFhMWExYTFhMWExYTFhMWExYTFh"
  ++ "MSIsImFtb3VudCI6IjEwMDAiLCJmcm9tIjoiMHgxMTExMTExMTExMTExMTExMTEx"
  ++ "MTExMTExMTExMTExMTExMTExMTExIn19".

Definition header_paid_again : string :=
  "eyJ4NDAyVmVyc2lvbiI6MSwic2NoZW1lIjoiZXhhY3QiLCJuZXR3b3JrIjoic2Vp"
  ++ "LXRlc3RuZXQiLCJwYXlsb2FkIjp7InR4SGFzaCI6IjB4YTFhMWExYTFhMWExYTFh"
  ++ "MWExYTFhMWExYTFhMWExYTFhMWExYTFhMWExYTFhMWExYTFhMWExYTFhMWExYTFh"
  ++ "MSIsImFtb3VudCI6IjEiLCJmcm9tIjoiMHgyMjIyMjIyMjIyMjIyMjIyMjIyMjIy"
  ++ "MjIyMjIyMjIyMjIyMjIyMjIyIn19".

Definition header_elsewhere : string :=
  "eyJ4NDAyVmVyc2lvbiI6MSwic2NoZW1lIjoiZXhhY3QiLCJuZXR3b3JrIjoic2Vp"
  ++ "LXRlc3RuZXQiLCJwYXlsb2FkIjp7InR4SGFzaCI6IjB4YjJiMmIyYjJiMmIyYjJi"
  ++ "MmIyYjJiMmIyYjJiMmIyYjJiMmIyYjJiMmIyYjJiMmIyYjJiMmIyYjJiMmIyYjJi"
  ++ "MiIsImFtb3VudCI6IjEwMDAiLCJmcm9tIjoiMHgxMTExMTExMTExMTExMTExMTEx"
  ++ "MTExMTExMTExMTExMTExMTExMTExIn19".

Definition header_unreachable : string :=
  "eyJ4NDAyVmVyc2lvbiI6MSwic2NoZW1lIjoiZXhhY3QiLCJuZXR3b3JrIjoic2Vp"
  ++ "LXRlc3RuZXQiLCJwYXlsb2FkIjp7InR4SGFzaCI6IjB4ZDRkNGQ0ZDRkNGQ0ZDRk"
  ++ "NGQ0ZDRkNGQ0ZDRkNGQ0ZDRkNGQ0ZDRkNGQ0ZDRkNGQ0ZDRkNGQ0ZDRkNGQ0ZDRk"
  ++ "NCIsImFtb3VudCI6IjEwMDAiLCJmcm9tIjoiMHgxMTExMTExMTExMTExMTExMTEx"
  ++ "MTExMTExMTExMTExMTExMTExMTExIn19".

Definition header_other_network : string :=
  "eyJ4NDAyVmVyc2lvbiI6MSwic2NoZW1lIjoiZXhhY3QiLCJuZXR3b3JrIjoib3Ro"
  ++ "ZXItbmV0d29yayIsInBheWxvYWQiOnsidHhIYXNoIjoiMHhhMWExYTFhMWExYTFh"
  ++ "MWExYTFhMWExYTFhMWExYTFhMWExYTFhMWExYTFhMWExYTFhMWExYTFhMWExYTFh"
  ++ "MWExIiwiYW1vdW50IjoiMTAwMCIsImZyb20iOiIweDExMTExMTExMTExMTExMTEx"
  ++ "MTExMTExMTExMTExMTExMTExMTExMTEifX0=".

Definition header_no_payload : string :=
  "eyJ4NDAyVmVyc2lvbiI6MSwic2NoZW1lIjoiZXhhY3QiLCJuZXR3b3JrIjoic2Vp"
  ++ "LXRlc3RuZXQifQ==".

(** Not base64 at all: [Buffer.from] skips every character, and
    [JSON.parse] is handed the empty string. *)
Definition header_garbage : string := "!!!".

Definition rpc_failure : Error :=
  {| message :=
       "HTTP request failed. Status: 503 "
       ++ "URL: https://evm-rpc-testnet.sei-apis.com" |}.

Definition host : Host := {|
  JSON_parse_base64 := fun header =>
    if (header =? header_paid) then
      Returns (proof "sei-testnet" tx_paid "1000" payer)
    else if (header =? header_paid_again) then
      Returns (proof "sei-testnet" tx_paid "1" other_payer)
    else if (header =? header_elsewhere) then
      Returns (proof "sei-testnet" tx_elsewhere "1000" payer)
    else if (header =? header_unreachable) then
      Returns (proof "sei-testnet" tx_unreachable "1000" payer)
    else if (header =? header_other_network) then
      Returns (proof "other-network" tx_paid "1000" payer)
    else if (header =? header_no_payload) then
      Returns (VObj [ ("x402Version", VNum 1);
                      ("scheme", VStr "exact");
                      ("network", VStr "sei-testnet") ])
    else
      Throws {| message := "Unexpected end of JSON input" |};
  ledger := fun _ hash =>
    match hash with
    | VStr tx =>
        if (tx =? tx_paid) then
          (* a call of the USDC contract *)
          Returns (Some {|
            Viem.status := Viem.success;
            Viem.to := Some "0x4fcf1784b31630811181f670aea7a7bef803eaed" |})
        else if (tx =? tx_elsewhere) then
          (* a successful transaction sent to the recipient's own account *)
          Returns (Some {|
            Viem.status := Viem.success;
            Viem.to := Some "0x9dc2aa0038830c052253161b1ee49b9dd449bd66" |})
        else if (tx =? tx_unreachable) then Throws rpc_failure
        else Returns None
    | _ => Returns None
    end;
  clock := fun n => (1700000000000 + Z.of_nat n)%Z;
  random36 := fun _ => "0.4fzyo82mvyr"
|}.

(** The same server with a clock that stands still and a generator that
    draws 0.5 and then 0.25, whose base-36 renderings are ["0.i"] and
    ["0.9"]. *)
Definition host_same_millisecond : Host := {|
  JSON_parse_base64 := JSON_parse_base64 host;
  ledger := ledger host;
  clock := fun _ => 1700000000000%Z;
  random36 := fun n => match n with O => "0.i" | _ => "0.9" end
|}.

(** The process after [tx_paid] has been verified once. *)
Definition paid_world : World :=
  snd (verifyPayment header_paid host initial).

End Sample.

(* ================================================================== *)
(** * A process serving requests *)
(* ================================================================== *)

Module Process.

Import JS Route.

(** The state in which [GET] leaves the process. *)
Definition serve (h : Host) (req : NextRequest) (w : World) : World :=
  snd (GET req h w).

(** A run of the process: requests served one after the other, each
    under the behaviour the surroundings show at that time. *)
Fixpoint run_requests (reqs : list (Host * NextRequest)) (w : World) : World :=
  match reqs with
  | [] => w
  | (h, req) :: rest => run_requests rest (serve h req w)
  end.

(** The keys of a [Map]. *)
Definition Map_keys {V : Type} (m : Map V) : list value := map fst m.

(** The body of a served request. *)
Definition weather_of (now : Z) (verification : VerificationResult)
  : Weather.t :=
  {| Weather.location := "Sei Network";
     Weather.temperature := "99°F";
     Weather.conditions := "Sunny";
     Weather.humidity := "45%";
     Weather.windSpeed := "8 mph";
     Weather.timestamp := now;
     Weather.payment := verification |}.

(** The three ways [GET] answers: a challenge when no payment header was
    sent, a challenge with an [error] when the verifier rejected the
    header, the weather when it accepted it. *)
Inductive handled (h : Host) (w : World) (req : NextRequest)
  : NextResponse -> World -> Prop :=
| handled_no_payment challenge :
    header_x_payment req = None \/ header_x_payment req = Some "" ->
    generatePaymentChallenge h w = (Returns challenge, draw (tick w)) ->
    handled h w req
      {| status := 402; body := ChallengeBody challenge |}
      (draw (tick w))
| handled_rejected paymentHeader verification w1 challenge :
    header_x_payment req = Some paymentHeader ->
    paymentHeader <> "" ->
    verifyPayment paymentHeader h w = (Returns verification, w1) ->
    verify_exit h w paymentHeader verification w1 ->
    isValid verification = false ->
    generatePaymentChallenge h w1 = (Returns challenge, draw (tick w1)) ->
    handled h w req
      {| status := 402;
         body := ChallengeBody
                   (with_error challenge
                      (reason_or_default (reason verification))) |}
      (draw (tick w1))
| handled_accepted paymentHeader verification w1 :
    header_x_payment req = Some paymentHeader ->
    paymentHeader <> "" ->
    verifyPayment paymentHeader h w = (Returns verification, w1) ->
    verify_exit h w paymentHeader verification w1 ->
    isValid verification = true ->
    handled h w req
      {| status := 200;
         body := WeatherBody
                   (weather_of (clock h (clockReads w1)) verification) |}
      (tick w1).

End Process.


(* ================================================================== *)
(** * More submitted headers *)
(* ================================================================== *)

Module Sample2.

Import JS Route.

Definition tx_pending : string :=
  "0xe5e5e5e5e5e5e5e5e5e5e5e5e5e5e5e5e5e5e5e5e5e5e5e5e5e5e5e5e5e5e5e5".

(** A proof whose payload names no transaction. *)
Definition header_no_hash : string :=
  "eyJ4NDAyVmVyc2lvbiI6MSwic2NoZW1lIjoiZXhhY3QiLCJuZXR3b3JrIjoic2Vp"
  ++ "LXRlc3RuZXQiLCJwYXlsb2FkIjp7ImFtb3VudCI6IjEwMDAiLCJmcm9tIjoiMHgx"
  ++ "MTExMTExMTExMTExMTExMTExMTExMTExMTExMTExMTExMTExMTExIn19".

Definition header_pending : string :=
  "eyJ4NDAyVmVyc2lvbiI6MSwic2NoZW1lIjoiZXhhY3QiLCJuZXR3b3JrIjoic2Vp"
  ++ "LXRlc3RuZXQiLCJwYXlsb2FkIjp7InR4SGFzaCI6IjB4ZTVlNWU1ZTVlNWU1ZTVl"
  ++ "NWU1ZTVlNWU1ZTVlNWU1ZTVlNWU1ZTVlNWU1ZTVlNWU1ZTVlNWU1ZTVlNWU1ZTVl"
  ++ "NSIsImFtb3VudCI6IjEwMDAiLCJmcm9tIjoiMHgxMTExMTExMTExMTExMTExMTEx"
  ++ "MTExMTExMTExMTExMTExMTExMTExIn19".

(** The sample server, with two more headers understood, and a ledger on
    which [tx_pending] has no receipt yet. *)
Definition host : Host := {|
  JSON_parse_base64 := fun header =>
    if (header =? header_no_hash) then
      Returns (VObj [ ("x402Version", VNum 1);
                      ("scheme", VStr "exact");
                      ("network", VStr "sei-testnet");
                      ("payload", VObj [ ("amount", VStr "1000");
                                         ("from", VStr Sample.payer) ]) ])
    else if (header =? header_pending) then
      Returns (Sample.proof "sei-testnet" tx_pending "1000" Sample.payer)
    else JSON_parse_base64 Sample.host header;
  ledger := ledger Sample.host;
  clock := clock Sample.host;
  random36 := random36 Sample.host
|}.

(** A ledger endpoint that is down for good. *)
Definition host_ledger_down : Host := {|
  JSON_parse_base64 := JSON_parse_base64 host;
  ledger := fun _ _ => Throws Sample.rpc_failure;
  clock := clock host;
  random36 := random36 host
|}.

End Sample2.


Module ProcessInvariant.

Import JS Route Process.

(** What holds of the cache in every state the process can reach: each
    key is a usable hash, each key has been asked of the ledger, and
    there are no more entries than receipts asked. *)
Definition cache_sound (w : World) : Prop :=
  Forall (fun k => truthy k = true) (Map_keys (verifiedPayments w))
  /\ incl (Map_keys (verifiedPayments w)) (receiptQueries w)
  /\ (List.length (verifiedPayments w) <= List.length (receiptQueries w))%nat.

End ProcessInvariant.


(* ================================================================== *)
(** * Node: JSON text and base64 *)
(* ================================================================== *)

Module Node.

(** The double quote and the backslash. *)
Definition dquote : ascii := ascii_of_nat 34.
Definition backslash : ascii := ascii_of_nat 92.

Definition hex_digit (n : nat) : ascii :=
  match String.get n "0123456789abcdef" with
  | Some c => c
  | None => "0"%char
  end.

(** [JSON.stringify(s)] for a string [s] of well-formed text: quotes
    around it, the quote and the backslash escaped, control characters
    written with their short escape or as [\u00XX], everything else as it
    is. *)
Definition JSON_escape (c : ascii) : string :=
  let n := nat_of_ascii c in
  if (n =? 34)%nat then String backslash (String dquote "")
  else if (n =? 92)%nat then String backslash (String backslash "")
  else if (n =? 8)%nat then String backslash "b"
  else if (n =? 12)%nat then String backslash "f"
  else if (n =? 10)%nat then String backslash "n"
  else if (n =? 13)%nat then String backslash "r"
  else if (n =? 9)%nat then String backslash "t"
  else if (n <? 32)%nat then
    String backslash
      ("u00" ++ String (hex_digit (n / 16)) (String (hex_digit (n mod 16)) ""))
  else String c "".

Fixpoint JSON_escape_all (s : string) : string :=
  match s with
  | EmptyString => EmptyString
  | String c rest => JSON_escape c ++ JSON_escape_all rest
  end.

Definition JSON_stringify_string (s : string) : string :=
  String dquote (JSON_escape_all s ++ String dquote "").

(** ["key":] inside an object. *)
Definition JSON_key (k : string) : string :=
  JSON_stringify_string k ++ ":".

(** [Buffer.from(text).toString("base64")]: the bytes of the text, three
    at a time, as four characters of the standard alphabet, padded with
    [=]. *)
Definition base64_alphabet : string :=
  "ABCDEFGHIJKLMNOPQRSTUVWXYZabcdefghijklmnopqrstuvwxyz0123456789+/".

Definition base64_char (n : nat) : ascii :=
  match String.get n base64_alphabet with
  | Some c => c
  | None => "="%char
  end.

Fixpoint base64 (bytes : string) : string :=
  match bytes with
  | EmptyString => EmptyString
  | String a EmptyString =>
      let x := nat_of_ascii a in
      String (base64_char (x / 4))
        (String (base64_char ((x mod 4) * 16)) "==")
  | String a (String b EmptyString) =>
      let x := nat_of_ascii a in
      let y := nat_of_ascii b in
      String (base64_char (x / 4))
        (String (base64_char ((x mod 4) * 16 + y / 16))
           (String (base64_char ((y mod 16) * 4)) "="))
  | String a (String b (String c rest)) =>
      let x := nat_of_ascii a in
      let y := nat_of_ascii b in
      let z := nat_of_ascii c in
      String (base64_char (x / 4))
        (String (base64_char ((x mod 4) * 16 + y / 16))
           (String (base64_char ((y mod 16) * 4 + z / 64))
              (String (base64_char (z mod 64)) (base64 rest))))
  end.

End Node.


(* ================================================================== *)
(** * [lib/axiom-config.ts]: the agent's memory and actions

    The four actions of the Sei context, [makeX402Payment], and the
    memory they work on. An action runs inside one agent process, which
    holds the memory and reaches the wallet, the price service and the
    weather route; [fetch] of [http://localhost:3000/api/weather] is
    answered by the route of this application, running in its own
    process state. Everything thrown by the runtime and the libraries
    involved is an [Error], so [error instanceof Error] holds wherever
    the handlers ask. The [console] calls are left out. *)
(* ================================================================== *)

Module Agent.

Import JS.

(** ** Data *)

Record SeiMemory : Type := {
  wallet : string;
  transactions : list string;
  lastTransaction : option string;
  balance : float;
  conversationHistory : list string
}.

Module Data.
Record t : Type := { content : string }.
End Data.

Record ActionResponse : Type := {
  data : Data.t;
  content : string
}.

(** The request handed to [walletClient.sendTransaction]: destination and
    call data. *)
Record TransactionRequest : Type := {
  to : string;
  data_hex : string
}.

(** What [fetch] resolves to, as far as the handlers look: the status and
    the outcome of [json()]. *)
Record FetchResponse : Type := {
  status : Z;
  json : outcome Route.Body
}.

(** The calls an action makes out of the process, in the order made
    (latest first). *)
Inductive Call : Type :=
| call_getERC20Balance
| call_ERC20Transfer (amount to : string)
| call_sendTransaction (request : TransactionRequest)
| call_fetch_price
| call_fetch_weather (payment : option string).

Record World : Type := {
  memory : SeiMemory;
  calls : list Call;
  weatherServer : Route.World
}.

(** What the actions call but do not define; each answer may depend on
    how many calls were made before. *)
Record Host : Type := {
  (** the surroundings of the weather route *)
  serverHost : Route.Host;
  (** [fetch] fails before reaching the weather route *)
  unreachable : nat -> option Error;
  (** [seiWallet.walletAdress] *)
  walletAdress : string;
  (** [seiWallet.getERC20Balance()] *)
  getERC20Balance : nat -> outcome string;
  (** [seiWallet.ERC20Transfer(amount, to)] *)
  ERC20Transfer : nat -> string -> string -> outcome string;
  (** viem's [encodeFunctionData] for [transfer(to, amount)] *)
  encodeFunctionData : string -> Z -> outcome string;
  (** [seiWallet.walletClient.sendTransaction(request)] *)
  sendTransaction : nat -> TransactionRequest -> outcome string;
  (** [fetch] of the price service followed by [res.json()] *)
  fetch_price : nat -> outcome value;
  (** [parseFloat] *)
  parseFloat : string -> float;
  (** a number in a template literal, and [String(n)] *)
  Number_toString : float -> string;
  (** any value in a template literal *)
  ToString : value -> string
}.

(** ** Effects *)

Definition M (A : Type) : Type := Host -> World -> outcome A * World.

Definition ret {A : Type} (a : A) : M A := fun _ w => (Returns a, w).

Definition throw {A : Type} (e : Error) : M A := fun _ w => (Throws e, w).

Definition bind {A B : Type} (m : M A) (k : A -> M B) : M B :=
  fun h w =>
    match m h w with
    | (Returns a, w') => k a h w'
    | (Throws e, w') => (Throws e, w')
    end.

Definition try_catch {A : Type} (body : M A) (handler : Error -> M A) : M A :=
  fun h w =>
    match body h w with
    | (Returns a, w') => (Returns a, w')
    | (Throws e, w') => handler e h w'
    end.

Definition lift {A : Type} (o : outcome A) : M A := fun _ w => (o, w).

Declare Scope agent_scope.
Delimit Scope agent_scope with agent.
Notation "x <- m ;; k" := (bind m (fun x => k))
  (at level 61, m at next level, right associativity) : agent_scope.
Notation "m ;;; k" := (bind m (fun _ => k))
  (at level 61, right associativity) : agent_scope.
Open Scope agent_scope.

Definition called (c : Call) (w : World) : World :=
  {| memory := memory w;
     calls := c :: calls w;
     weatherServer := weatherServer w |}.

Definition with_memory (m : SeiMemory) (w : World) : World :=
  {| memory := m; calls := calls w; weatherServer := weatherServer w |}.

Definition with_server (s : Route.World) (w : World) : World :=
  {| memory := memory w; calls := calls w; weatherServer := s |}.

Definition get_memory : M SeiMemory := fun _ w => (Returns (memory w), w).

Definition update_memory (f : SeiMemory -> SeiMemory) : M unit :=
  fun _ w => (Returns tt, with_memory (f (memory w)) w).

(** [memory.conversationHistory.push(line)] *)
Definition push_history (line : string) (m : SeiMemory) : SeiMemory :=
  {| wallet := wallet m;
     transactions := transactions m;
     lastTransaction := lastTransaction m;
     balance := balance m;
     conversationHistory := (conversationHistory m ++ [line])%list |}.

(** [memory.balance = b] *)
Definition set_balance (b : float) (m : SeiMemory) : SeiMemory :=
  {| wallet := wallet m;
     transactions := transactions m;
     lastTransaction := lastTransaction m;
     balance := b;
     conversationHistory := conversationHistory m |}.

(** [memory.transactions.unshift(tx); memory.lastTransaction = tx] *)
Definition record_transaction (tx : string) (m : SeiMemory) : SeiMemory :=
  {| wallet := wallet m;
     transactions := tx :: transactions m;
     lastTransaction := Some tx;
     balance := balance m;
     conversationHistory := conversationHistory m |}.

Definition wallet_getERC20Balance : M string :=
  fun h w =>
    (getERC20Balance h (List.length (calls w)),
     called call_getERC20Balance w).

Definition wallet_ERC20Transfer (amount to : string) : M string :=
  fun h w =>
    (ERC20Transfer h (List.length (calls w)) amount to,
     called (call_ERC20Transfer amount to) w).

Definition wallet_sendTransaction (request : TransactionRequest) : M string :=
  fun h w =>
    (sendTransaction h (List.length (calls w)) request,
     called (call_sendTransaction request) w).

Definition fetch_sei_price : M value :=
  fun h w =>
    (fetch_price h (List.length (calls w)), called call_fetch_price w).

(** [fetch(`${baseUrl}/api/weather`, { method: "GET", headers })]: unless
    the server cannot be reached, the route's [GET] runs on the request,
    whose [X-Payment] header is [payment]; an exception escaping the
    route is answered by the framework with status 500 and no JSON. *)
Definition fetch_weather (payment : option string) : M FetchResponse :=
  fun h w =>
    let w1 := called (call_fetch_weather payment) w in
    match unreachable h (List.length (calls w)) with
    | Some e => (Throws e, w1)
    | None =>
        match Route.GET {| Route.header_x_payment := payment |}
                (serverHost h) (weatherServer w) with
        | (Returns response, server) =>
            (Returns {| status := Route.status response;
                        json := Returns (Route.body response) |},
             with_server server w1)
        | (Throws _, server) =>
            (Returns {| status := 500;
                        json := Throws {| message :=
                          "Unexpected end of JSON input" |} |},
             with_server server w1)
        end
    end.

(** [response.ok] *)
Definition ok (response : FetchResponse) : bool :=
  ((200 <=? status response) && (status response <=? 299))%Z.

(** ** The context *)

(** [create({ args })], with [args.userMessage] optional. *)
Definition create (args_wallet : string) (args_userMessage : option string)
  : SeiMemory :=
  {| wallet := args_wallet;
     transactions := [];
     lastTransaction := None;
     balance := 0;
     conversationHistory :=
       match args_userMessage with
       | Some userMessage =>
           if (userMessage =? "") then [] else [userMessage]
       | None => []
       end |}.

Definition actionResponse (message : string) : ActionResponse :=
  {| data := {| Data.content := message |}; content := message |}.

(** ** [makeX402Payment] *)

Definition parse_units (amount : string) : M Z :=
  match Viem.parseUnits amount (Config.assetDecimals X402_CONFIG) with
  | Some units => ret units
  | None => throw {| message := "Number is not a valid decimal number." |}
  end.

Definition makeX402Payment (amount recipient reference : string) : M string :=
  try_catch
    (amountInUnits <- parse_units amount ;;
     transferData <-
       (fun h w => (encodeFunctionData h recipient amountInUnits, w)) ;;
     hash <- wallet_sendTransaction
               {| to := Config.assetAddress X402_CONFIG;
                  data_hex := transferData |} ;;
     ret hash)
    (fun error =>
       throw {| message := "Payment failed: " ++ message error |}).

(** ** [getBalance] *)

(** [address || memory.wallet] *)
Definition or_wallet (address : option string) (m : SeiMemory) : string :=
  match address with
  | Some a => if (a =? "") then wallet m else a
  | None => wallet m
  end.

Definition getBalance (address : option string) : M ActionResponse :=
  try_catch
    (m <- get_memory ;;
     let targetAddress := or_wallet address m in
     if (targetAddress =? "") then
       ret (actionResponse
         "Error: No wallet address provided and no primary wallet set in memory. Please provide an address or ensure your primary wallet is configured.")
     else
       balance <- wallet_getERC20Balance ;;
       parsed <- (fun h w => (Returns (parseFloat h balance), w)) ;;
       update_memory (set_balance parsed) ;;;
       update_memory (push_history
         ("Checked balance for "
       ++ targetAddress
       ++ ": "
       ++ balance
       ++ " SEI")) ;;;
       ret (actionResponse
         ("✅ **Balance Check Complete**
**Wallet:** "
       ++ targetAddress
       ++ "
**Balance:** "
       ++ balance
       ++ " SEI

This is your current SEI token balance on the Sei testnet. You can use this balance to make transfers or check your account status.")))
    (fun error =>
       let errorMsg :=
         ("Error: Failed to get balance. "
       ++ message error) in
       update_memory (push_history
         ("Failed to check balance: "
       ++ errorMsg)) ;;;
       ret (actionResponse errorMsg)).

(** ** [transferToken] *)

Definition transferToken (to : string) (amount : float) : M ActionResponse :=
  try_catch
    (let addressTo := to in
     if (addressTo =? "") then
       ret (actionResponse
         "Error: No recipient address provided. Please provide a valid Sei wallet address.")
     else
       amount_text <- (fun h w => (Returns (Number_toString h amount), w)) ;;
       transaction <- wallet_ERC20Transfer amount_text addressTo ;;
       update_memory (record_transaction transaction) ;;;
       update_memory (push_history
         ("Transferred "
       ++ amount_text
       ++ " SEI to "
       ++ addressTo
       ++ ". TX: "
       ++ transaction)) ;;;
       ret (actionResponse
         ("🚀 **Transfer Successful!**

**Amount:** "
       ++ amount_text
       ++ " SEI
**To:** "
       ++ addressTo
       ++ "
**Transaction Hash:** "
       ++ transaction
       ++ "

Your transfer has been submitted to the Sei testnet. You can view the transaction on [SeiTrace](https://seitrace.com/tx/"
       ++ transaction
       ++ "?chain=atlantic-2).

The transaction is now being processed by the network.")))
    (fun error =>
       let errorMsg :=
         ("Error: Failed to transfer tokens. "
       ++ message error) in
       update_memory (push_history
         ("Transfer failed: "
       ++ errorMsg)) ;;;
       ret (actionResponse errorMsg)).

(** ** [getSeiPrice] *)

Definition getSeiPrice : M ActionResponse :=
  try_catch
    (data <- fetch_sei_price ;;
     entry <- lift (get_property data "sei-network") ;;
     price <- lift (get_property entry "usd") ;;
     price_text <- (fun h w => (Returns (ToString h price), w)) ;;
     update_memory (push_history
       ("Checked SEI price: $"
       ++ price_text
       ++ " USD")) ;;;
     ret (actionResponse
       ("💰 **Current SEI Price**

**Price:** $"
       ++ price_text
       ++ " USD
This is the current market price of SEI token according to CoinGecko. Prices are updated in real-time and may fluctuate based on market conditions.

You can use this information to:
- Calculate the USD value of your SEI holdings
- Make informed decisions about transfers
- Track market trends")))
    (fun error =>
       let errorMsg :=
         ("Error: Failed to fetch SEI price. "
       ++ message error) in
       update_memory (push_history
         ("Failed to get SEI price: "
       ++ errorMsg)) ;;;
       ret (actionResponse errorMsg)).

(** ** [getWeather] *)

(** [paymentChallenge.accepts[0]] of a parsed body. *)
Definition first_option (body : Route.Body) : outcome Route.PaymentOption :=
  match body with
  | Route.ChallengeBody challenge =>
      match Route.accepts challenge with
      | option :: _ => Returns option
      | [] =>
          Throws {| message :=
            "Cannot read properties of undefined (reading 'extra')" |}
      end
  | Route.WeatherBody _ =>
      Throws {| message :=
        "Cannot read properties of undefined (reading '0')" |}
  end.

(** A property of the weather data in a template literal; a body that is
    not weather data has none of them. *)
Definition weather_text (body : Route.Body)
    (property : Route.Weather.t -> string) : string :=
  match body with
  | Route.WeatherBody weatherData => property weatherData
  | Route.ChallengeBody _ => "undefined"
  end.

(** [JSON.stringify(paymentProof)] *)
Definition proof_text (txHash amount from : string) : string :=
  "{" ++ Node.JSON_key "x402Version" ++ "1"
  ++ "," ++ Node.JSON_key "scheme" ++ Node.JSON_stringify_string "exact"
  ++ "," ++ Node.JSON_key "network"
  ++ Node.JSON_stringify_string (Config.network X402_CONFIG)
  ++ "," ++ Node.JSON_key "payload"
  ++ "{" ++ Node.JSON_key "txHash" ++ Node.JSON_stringify_string txHash
  ++ "," ++ Node.JSON_key "amount" ++ Node.JSON_stringify_string amount
  ++ "," ++ Node.JSON_key "from" ++ Node.JSON_stringify_string from
  ++ "}}".

(** [Buffer.from(JSON.stringify(paymentProof)).toString("base64")] *)
Definition proof_header (txHash amount from : string) : string :=
  Node.base64 (proof_text txHash amount from).

Definition getWeather : M ActionResponse :=
  try_catch
    ((* Step 1: request the weather, expecting 402 *)
     weatherResponse <- fetch_weather None ;;
     if negb (status weatherResponse =? 402)%Z then
       throw {| message :=
         ("Expected 402 Payment Required, got "
       ++ integer_toString (status weatherResponse)) |}
     else
       paymentChallenge <- lift (json weatherResponse) ;;
       (* Step 2: pay *)
       option <- lift (first_option paymentChallenge) ;;
       let reference := Route.reference (Route.extra option) in
       let amount := "0.001" in
       option' <- lift (first_option paymentChallenge) ;;
       let recipient := Route.payTo option' in
       txHash <- makeX402Payment amount recipient reference ;;
       (* Step 3: three seconds pass *)
       (* Step 4: retry with the proof *)
       units <- parse_units amount ;;
       from <- (fun h w => (Returns (walletAdress h), w)) ;;
       let paymentHeader :=
         proof_header txHash (integer_toString units) from in
       weatherDataResponse <- fetch_weather (Some paymentHeader) ;;
       if negb (ok weatherDataResponse) then
         throw {| message :=
           ("Weather API error: "
       ++ integer_toString (status weatherDataResponse)) |}
       else
         weatherData <- lift (json weatherDataResponse) ;;
         update_memory (record_transaction txHash) ;;;
         update_memory (push_history
           ("Got weather data. Payment TX: "
       ++ txHash)) ;;;
         ret (actionResponse
           ("🌤️ **Weather Data Retrieved**

**Location:** "
       ++ weather_text weatherData Route.Weather.location
       ++ "
**Temperature:** "
       ++ weather_text weatherData Route.Weather.temperature
       ++ "
**Conditions:** "
       ++ weather_text weatherData Route.Weather.conditions
       ++ "
**Humidity:** "
       ++ weather_text weatherData Route.Weather.humidity
       ++ "
**Wind Speed:** "
       ++ weather_text weatherData Route.Weather.windSpeed
       ++ "

✅ **Payment Successful!**

**Transaction Hash:** "
       ++ txHash
       ++ "
**Amount:** $"
       ++ amount
       ++ " USDC
**Status:** Confirmed on Sei Testnet

🔗 **View Transaction:** [SeiTrace](https://seitrace.com/tx/"
       ++ txHash
       ++ "?chain=atlantic-2)

The weather data has been successfully retrieved after completing the X402 micropayment.")))
    (fun error =>
       let errorMsg :=
         ("Error: Failed to get weather data. "
       ++ message error) in
       update_memory (push_history
         ("Failed to get weather: "
       ++ errorMsg)) ;;;
       ret (actionResponse
         ("❌ **Weather Request Failed**

"
       ++ errorMsg
       ++ "

Please try again or check your wallet balance for USDC tokens needed for the payment."))).

(** ** Running actions *)

Inductive Action : Type :=
| do_getBalance (address : option string)
| do_transferToken (to : string) (amount : float)
| do_getSeiPrice
| do_getWeather.

Definition run_action (a : Action) : M ActionResponse :=
  match a with
  | do_getBalance address => getBalance address
  | do_transferToken to amount => transferToken to amount
  | do_getSeiPrice => getSeiPrice
  | do_getWeather => getWeather
  end.

(** The state after a series of actions, each under the behaviour the
    surroundings show at that time. *)
Fixpoint run_actions (steps : list (Host * Action)) (w : World) : World :=
  match steps with
  | [] => w
  | (h, a) :: rest => run_actions rest (snd (run_action a h w))
  end.

(** The parsed form of the proof the agent sends. *)
Definition proof_value (txHash amount from : string) : value :=
  VObj [ ("x402Version", VNum 1);
         ("scheme", VStr "exact");
         ("network", VStr (Config.network X402_CONFIG));
         ("payload", VObj [ ("txHash", VStr txHash);
                            ("amount", VStr amount);
                            ("from", VStr from) ]) ].

(** The memory is consistent when the last transaction is the head of
    the transaction list. *)
Definition consistent (m : SeiMemory) : Prop :=
  lastTransaction m = List.hd_error (transactions m).

End Agent.


(* ================================================================== *)
(** * A concrete agent *)
(* ================================================================== *)

Module SampleAgent.

Import JS.

(** Call data of [transfer(recipient, 1000)]. *)
Definition transfer_data : string :=
  "0xa9059cbb"
  ++ "0000000000000000000000009dc2aa0038830c052253161b1ee49b9dd449bd66"
  ++ "00000000000000000000000000000000000000000000000000000000000003e8".

Definition insufficient_funds : Error :=
  {| message := "insufficient funds for gas * price + value" |}.

(** An agent whose wallet has the address [Sample.payer]; every transfer
    it sends gets the hash [tx_paid], which the ledger of the sample
    server knows as a successful call of the asset contract. *)
Definition host : Agent.Host := {|
  Agent.serverHost := Sample2.host;
  Agent.unreachable := fun _ => None;
  Agent.walletAdress := Sample.payer;
  Agent.getERC20Balance := fun _ => Returns "12.5";
  Agent.ERC20Transfer := fun _ _ _ => Returns Sample.tx_paid;
  Agent.encodeFunctionData := fun _ _ => Returns transfer_data;
  Agent.sendTransaction := fun _ _ => Returns Sample.tx_paid;
  Agent.fetch_price := fun _ =>
    Returns (VObj [ ("sei-network", VObj [ ("usd", VNum 0.25) ]) ]);
  Agent.parseFloat := fun _ => 12.5%float;
  Agent.Number_toString := fun _ => "1.5";
  Agent.ToString := fun _ => "0.25"
|}.


(** The same agent with a wallet that cannot pay, and a price service
    that answers without the expected entry. *)
Definition host_broke : Agent.Host := {|
  Agent.serverHost := Sample2.host;
  Agent.unreachable := Agent.unreachable host;
  Agent.walletAdress := Sample.payer;
  Agent.getERC20Balance := fun _ => Throws insufficient_funds;
  Agent.ERC20Transfer := fun _ _ _ => Throws insufficient_funds;
  Agent.encodeFunctionData := Agent.encodeFunctionData host;
  Agent.sendTransaction := fun _ _ => Throws insufficient_funds;
  Agent.fetch_price := fun _ => Returns (VObj [ ("status", VObj []) ]);
  Agent.parseFloat := Agent.parseFloat host;
  Agent.Number_toString := Agent.Number_toString host;
  Agent.ToString := Agent.ToString host
|}.

(** A new conversation, next to a weather server that has just
    started. *)
Definition start : Agent.World := {|
  Agent.memory := Agent.create Sample.payer (Some "how about the weather");
  Agent.calls := [];
  Agent.weatherServer := Route.initial
|}.

End SampleAgent.


Module AgentInvariant.

Import JS.

(** How the memory may differ after an action: the wallet is the same,
    transactions are added at the front, history lines at the end, and a
    consistent memory stays consistent. *)
Definition grows (m m' : Agent.SeiMemory) : Prop :=
  Agent.wallet m' = Agent.wallet m
  /\ (exists newer,
        Agent.transactions m' = (newer ++ Agent.transactions m)%list)
  /\ (exists later,
        Agent.conversationHistory m'
          = (Agent.conversationHistory m ++ later)%list)
  /\ (Agent.consistent m -> Agent.consistent m').

(** A computation that lets the memory only grow, whatever it returns or
    throws. *)
Definition keeps {A : Type} (c : Agent.M A) : Prop :=
  forall h w, grows (Agent.memory w) (Agent.memory (snd (c h w))).

End AgentInvariant.


(* ================================================================== *)
(** * [app/api/chat/route.ts]: the chat endpoint

    [POST] picks the latest user message out of the request body, runs
    the agent on it and streams what the agent answered as server-sent
    events. The agent itself (model and framework) is part of the
    surroundings, as are [JSON.parse], [JSON.stringify] of a value that
    is not a string, and the rendering of such a value in a template
    literal. Values have none of the properties read here ([messages],
    [role], [content], [name], [data], [ref], [text]) unless they are
    objects that own them. [createAgent] is taken to succeed, and the
    stream to stay open while the events are sent. The [console] calls
    are left out. *)
(* ================================================================== *)

Module Chat.

Import JS.

Record Host : Type := {
  (** [seiAxiom.start()] and [seiAxiom.run({ context, args })] on the
      user message *)
  agent : value -> outcome value;
  (** [JSON.parse(v)] *)
  JSON_parse : value -> outcome value;
  (** [JSON.stringify(v)] for a value that is not a string *)
  JSON_stringify : value -> string;
  (** a value that is not a string, in a template literal *)
  ToString : value -> string
}.

(** ** Plain code that may throw *)

Definition and_then {A B : Type} (o : outcome A) (k : A -> outcome B)
  : outcome B :=
  match o with
  | Returns a => k a
  | Throws e => Throws e
  end.

Declare Scope chat_scope.
Delimit Scope chat_scope with chat.
Notation "x <- o ;; k" := (and_then o (fun x => k))
  (at level 61, o at next level, right associativity) : chat_scope.
Open Scope chat_scope.

(** [items.find(predicate)]: the first item the predicate holds of,
    [None] for [undefined]; an exception of the predicate ends the
    search. *)
Fixpoint find (predicate : value -> outcome bool) (items : list value)
  : outcome (option value) :=
  match items with
  | [] => Returns None
  | item :: rest =>
      holds <- predicate item ;;
      if (holds : bool) then Returns (Some item) else find predicate rest
  end.

(** [v?.name] *)
Definition optional_property (v : value) (name : string) : outcome value :=
  match v with
  | VUndefined | VNull => Returns VUndefined
  | _ => get_property v name
  end.

(** [a ?? b] and [a || b] *)
Definition nullish_or (a b : value) : value :=
  match a with
  | VUndefined | VNull => b
  | _ => a
  end.

Definition falsy_or (a b : value) : value :=
  if truthy a then a else b.

(** A value in a template literal. *)
Definition text_of (h : Host) (v : value) : string :=
  match v with
  | VStr s => s
  | _ => ToString h v
  end.

(** [JSON.stringify(v)] *)
Definition stringify (h : Host) (v : value) : string :=
  match v with
  | VStr s => Node.JSON_stringify_string s
  | _ => JSON_stringify h v
  end.

(** ** The latest user message *)

(** [(m) => m.role === "user"] *)
Definition is_user (m : value) : outcome bool :=
  role <- get_property m "role" ;;
  Returns (strict_equal role (VStr "user")).

(** [Array.isArray(messages)
       ? [...messages].reverse().find(...)?.content ?? ""
       : ""] *)
Definition lastUserMessage (messages : value) : outcome value :=
  match messages with
  | VArr items =>
      found <- find is_user (rev items) ;;
      content <-
        optional_property
          (match found with Some m => m | None => VUndefined end)
          "content" ;;
      Returns (nullish_or content (VStr ""))
  | _ => Returns (VStr "")
  end.

(** ** The text to stream *)

(** [(item) => item.name === "text" && item.content] *)
Definition is_text_output (item : value) : outcome bool :=
  name <- get_property item "name" ;;
  if strict_equal name (VStr "text") then
    content <- get_property item "content" ;;
    Returns (truthy content)
  else Returns false.

(** [(item) => item.name === "getWeather" && item.data?.content] *)
Definition is_weather_result (item : value) : outcome bool :=
  name <- get_property item "name" ;;
  if strict_equal name (VStr "getWeather") then
    data <- get_property item "data" ;;
    content <- optional_property data "content" ;;
    Returns (truthy content)
  else Returns false.

(** [(item) => item.ref === "action_result" && item.data?.content] *)
Definition is_action_result (item : value) : outcome bool :=
  ref <- get_property item "ref" ;;
  if strict_equal ref (VStr "action_result") then
    data <- get_property item "data" ;;
    content <- optional_property data "content" ;;
    Returns (truthy content)
  else Returns false.

(** [item.data.content] *)
Definition data_content (item : value) : outcome value :=
  data <- get_property item "data" ;;
  get_property data "content".

(** [try { parsed = JSON.parse(content);
           responseText = parsed.content || content }
     catch { responseText = content }] *)
Definition parsed_or_raw (h : Host) (content : value) : value :=
  match (parsedContent <- JSON_parse h content ;;
         inner <- get_property parsedContent "content" ;;
         Returns (falsy_or inner content)) with
  | Returns responseText => responseText
  | Throws _ => content
  end.

(** The value of [responseText] once the agent's response has been
    looked through. *)
Definition responseText (h : Host) (response : value) : outcome value :=
  match response with
  | VArr items =>
      textOutput <- find is_text_output items ;;
      match textOutput with
      | Some item =>
          content <- get_property item "content" ;;
          Returns (parsed_or_raw h content)
      | None =>
          weatherActionResult <- find is_weather_result items ;;
          match weatherActionResult with
          | Some item => data_content item
          | None =>
              actionResult <- find is_action_result items ;;
              match actionResult with
              | Some item => data_content item
              | None => Returns (VStr "")
              end
          end
      end
  | VObj _ =>
      text <- get_property response "text" ;;
      content <- get_property response "content" ;;
      Returns (falsy_or text (falsy_or content (VStr "")))
  | _ => Returns (VStr "")
  end.

(** ** The stream *)

Definition newline : string := "
".

(** The events [send] is called with. *)
Inductive Event : Type :=
| event_start
| event_text (text : value)
| event_finish.

(** [JSON.stringify(obj)] for the three event objects. *)
Definition event_json (h : Host) (e : Event) : string :=
  match e with
  | event_start =>
      "{" ++ Node.JSON_key "type" ++ Node.JSON_stringify_string "start" ++ "}"
  | event_text text =>
      "{" ++ Node.JSON_key "type" ++ Node.JSON_stringify_string "text"
      ++ "," ++ Node.JSON_key "text" ++ stringify h text ++ "}"
  | event_finish =>
      "{" ++ Node.JSON_key "type" ++ Node.JSON_stringify_string "finish" ++ "}"
  end.

(** The state of the stream: the chunks enqueued so far, and whether the
    controller has been closed. *)
Record Stream : Type := {
  chunks : list string;
  closed : bool
}.

Definition S (A : Type) : Type := Stream -> outcome A * Stream.

Definition bind {A B : Type} (m : S A) (k : A -> S B) : S B :=
  fun s =>
    match m s with
    | (Returns a, s') => k a s'
    | (Throws e, s') => (Throws e, s')
    end.

Definition pure {A : Type} (o : outcome A) : S A := fun s => (o, s).

(** [try { body } catch (error) { handler } finally { last }] *)
Definition try_catch_finally {A : Type}
    (body : S A) (handler : Error -> S A) (last : S unit) : S A :=
  fun s =>
    let (o, s1) :=
      match body s with
      | (Returns a, s') => (Returns a, s')
      | (Throws e, s') => handler e s'
      end in
    match last s1 with
    | (Returns _, s2) => (o, s2)
    | (Throws e, s2) => (Throws e, s2)
    end.

(** [send(obj)]: one chunk, [`data: ${JSON.stringify(obj)}\n\n`]. *)
Definition send (h : Host) (e : Event) : S unit :=
  fun s =>
    (Returns tt,
     {| chunks := (chunks s
                   ++ [("data: " ++ event_json h e ++ newline ++ newline)%string])%list;
        closed := closed s |}).

(** [controller.close()] *)
Definition close : S unit :=
  fun s => (Returns tt, {| chunks := chunks s; closed := true |}).

Definition fallbackResponse (h : Host) (lastUserMessage : value) : string :=
    "I understand you said: "
    ++ String Node.dquote ""
    ++ text_of h lastUserMessage
    ++ String Node.dquote ""
    ++ ". I'm a SEI blockchain assistant. I can help you with:        
- Check wallet balances
- Transfer SEI tokens
- Get current SEI price
- Answer questions about SEI blockchain
- Get Weather Data (x402 API)
What would you like me to help you with?".

Definition errorMessage (h : Host) (lastUserMessage : value) : string :=
    "I encountered an error processing your request: "
    ++ String Node.dquote ""
    ++ text_of h lastUserMessage
    ++ String Node.dquote ""
    ++ ". Please try again or ask me something else about SEI blockchain.".

(** [start(controller)] of the stream. *)
Definition start (h : Host) (lastUserMessage : value) : S unit :=
  try_catch_finally
    (bind (send h event_start) (fun _ =>
     bind (pure (agent h lastUserMessage)) (fun response =>
     bind (pure (responseText h response)) (fun responseText =>
     bind (if truthy responseText then
             send h (event_text responseText)
           else
             send h (event_text (VStr (fallbackResponse h lastUserMessage))))
          (fun _ =>
     send h event_finish)))))
    (fun error =>
       bind (send h (event_text (VStr (errorMessage h lastUserMessage))))
            (fun _ => send h event_finish))
    close.

(** ** [POST] *)




End Chat.


Module ChatSpec.

Import JS.


(** The chunk [send] enqueues for an event. *)
Definition chunk (h : Chat.Host) (e : Chat.Event) : string :=
  "data: " ++ Chat.event_json h e ++ Chat.newline ++ Chat.newline.

(** A stream about to start. *)
Definition fresh : Chat.Stream :=
  {| Chat.chunks := []; Chat.closed := false |}.



End ChatSpec.


Module SampleChat.

Import JS.



Definition request (messages : list value) : value :=
  VObj [ ("messages", VArr messages) ].


Definition action_result (name text : string) : value :=
  VObj [ ("ref", VStr "action_result"); ("name", VStr name);
         ("data", VObj [ ("content", VStr text) ]) ].

(** A host whose agent gives the same response to every message; the
    texts of the samples are not JSON. *)
Definition host (response : value) : Chat.Host :=
  {| Chat.agent := fun _ => Returns response;
     Chat.JSON_parse := fun _ =>
       Throws {| message := "Unexpected token" |};
     Chat.JSON_stringify := fun _ => "null";
     Chat.ToString := fun _ => "undefined" |}.

End SampleChat.


(* ================================================================== *)
(** * Properties *)
(* ================================================================== *)

Import JS Route.
Unset Implicit Arguments.

(** ** The runtime *)

Example parseUnits_samples :
  Viem.parseUnits "0.001" 6 = Some 1000%Z
  /\ Viem.parseUnits "1.2300" 2 = Some 123%Z
  /\ Viem.parseUnits "-1.5" 2 = Some (-150)%Z
  /\ Viem.parseUnits "12" 0 = Some 12%Z
  /\ Viem.parseUnits "1.23456789" 6 = None
  /\ Viem.parseUnits "1,5" 6 = None.
Proof. repeat split; reflexivity. Qed.

Example string_samples :
  integer_toString 1000 = "1000"
  /\ integer_toString (-5) = "-5"
  /\ toLowerCase "0x4fCF1784B3" = "0x4fcf1784b3"
  /\ substring 7 "0.4fzyo82mvyr" = "82mvyr"
  /\ substring 7 "0.i" = "".
Proof. repeat split; reflexivity. Qed.

Lemma same_value_zero_refl (v : value) :
  primitive v = true -> same_value_zero v v = true.
Proof.
  destruct v as [| |b|x|s| |]; simpl; try reflexivity; try discriminate;
    intros _.
  - now destruct b.
  - unfold PrimFloat.is_nan. now destruct (PrimFloat.eqb x x).
  - apply String.eqb_refl.
Qed.

Lemma Map_has_set_same (V : Type) (m : Map V) (k : value) (v : V) :
  primitive k = true -> Map_has (Map_set m k v) k = true.
Proof.
  intros Hk. unfold Map_has.
  induction m as [|[k' v'] m IH]; simpl.
  - now rewrite same_value_zero_refl.
  - destruct (same_value_zero k' k) eqn:E; simpl; rewrite E; auto.
Qed.

Lemma Map_has_set_other (V : Type) (m : Map V) (k k' : value) (v : V) :
  Map_has m k' = true -> Map_has (Map_set m k v) k' = true.
Proof.
  unfold Map_has.
  induction m as [|[k0 v0] m IH]; simpl; [discriminate|].
  destruct (same_value_zero k0 k) eqn:E; simpl;
    destruct (same_value_zero k0 k') eqn:E'; auto.
Qed.

Lemma get_property_field (v : value) (name : string) :
  nullish v = false -> get_property v name = Returns (field v name).
Proof.
  unfold field. destruct v; simpl; try discriminate; reflexivity.
Qed.

Lemma get_property_returns (v : value) (name : string) (x : value) :
  get_property v name = Returns x -> nullish v = false.
Proof.
  destruct v; simpl; try discriminate; reflexivity.
Qed.

Lemma destructure_returns (paymentData : value) :
  nullish paymentData = false ->
  destructure paymentData =
    Returns (field paymentData "x402Version", field paymentData "scheme",
             field paymentData "network", field paymentData "payload").
Proof.
  intros Hn. unfold destructure.
  now rewrite !(get_property_field _ _ Hn).
Qed.

Lemma destructure_throws (paymentData : value) (e : Error) :
  destructure paymentData = Throws e -> nullish paymentData = true.
Proof.
  destruct (nullish paymentData) eqn:Hn; [reflexivity|].
  now rewrite (destructure_returns _ Hn).
Qed.

Lemma nullish_destructure (paymentData : value) :
  nullish paymentData = true ->
  exists e, destructure paymentData = Throws e.
Proof.
  destruct paymentData; try discriminate; intros _; eexists; reflexivity.
Qed.

(** ** The verifier, exit by exit *)

Ltac enter_verifier :=
  unfold verifyPayment, try_catch, bind, parse_header, lift, ret.

Lemma protocol_check (paymentData : value) :
  negb (strict_equal (field paymentData "x402Version") (VNum 1))
  || negb (strict_equal (field paymentData "scheme") (VStr "exact"))
  || negb (strict_equal (field paymentData "network")
             (VStr (Config.network X402_CONFIG)))
  = negb (protocol_match paymentData).
Proof.
  unfold protocol_match.
  now rewrite !negb_andb.
Qed.

(** Running the verifier on a well-formed proof leads to the cache
    lookup. *)
Ltac enter_cache_lookup Hdec Hc :=
  let Hn := fresh "Hn" in
  let Hm := fresh "Hm" in
  let Hk := fresh "Hk" in
  let Ht := fresh "Ht" in
  destruct Hc as (Hn & Hm & Hk & Ht);
  enter_verifier;
  rewrite Hdec, (destructure_returns _ Hn), protocol_check, Hm;
  cbn [negb]; rewrite Hk, Ht;
  unfold verifiedPayments_has.

Ltac by_exit run exit :=
  eexists _, _; split;
  [ eapply run; eauto using fault_decode, fault_null, fault_payload
  | eapply exit; eauto using fault_decode, fault_null, fault_payload ].

Section VerifierExits.

Variable h : Host.
Variable w : World.
Variable paymentHeader : string.

Lemma run_fault (e : Error) :
  proof_fault h paymentHeader e ->
  verifyPayment paymentHeader h w =
    (Returns (invalid ("Verification error: " ++ message e)), w).
Proof.
  intros [e' Hdec | d e' Hdec Hd | d e' Hdec Hn Hm Hp]; enter_verifier;
    rewrite Hdec.
  - reflexivity.
  - now rewrite Hd.
  - now rewrite (destructure_returns _ Hn), protocol_check, Hm, Hp.
Qed.

Lemma run_protocol (paymentData : value) :
  JSON_parse_base64 h paymentHeader = Returns paymentData ->
  nullish paymentData = false ->
  protocol_match paymentData = false ->
  verifyPayment paymentHeader h w =
    (Returns (invalid "Invalid payment format or network"), w).
Proof.
  intros Hdec Hn Hm. enter_verifier.
  now rewrite Hdec, (destructure_returns _ Hn), protocol_check, Hm.
Qed.

Lemma run_no_hash (paymentData hash : value) :
  JSON_parse_base64 h paymentHeader = Returns paymentData ->
  nullish paymentData = false ->
  protocol_match paymentData = true ->
  get_property (field paymentData "payload") "txHash" = Returns hash ->
  truthy hash = false ->
  verifyPayment paymentHeader h w =
    (Returns (invalid "No valid payment proof provided"), w).
Proof.
  intros Hdec Hn Hm Hk Ht. enter_verifier.
  now rewrite Hdec, (destructure_returns _ Hn), protocol_check, Hm, Hk, Ht.
Qed.

Lemma run_cached (paymentData hash : value) :
  JSON_parse_base64 h paymentHeader = Returns paymentData ->
  carries paymentData hash ->
  Map_has (verifiedPayments w) hash = true ->
  verifyPayment paymentHeader h w = (Returns valid_cached, w).
Proof.
  intros Hdec Hc Hhas. enter_cache_lookup Hdec Hc.
  now rewrite Hhas.
Qed.

Lemma run_ledger_fault (paymentData hash : value) (e : Error) :
  JSON_parse_base64 h paymentHeader = Returns paymentData ->
  carries paymentData hash ->
  Map_has (verifiedPayments w) hash = false ->
  ledger h (List.length (receiptQueries w)) hash = Throws e ->
  verifyPayment paymentHeader h w =
    (Returns (invalid ("Verification error: " ++ message e)),
     queried hash w).
Proof.
  intros Hdec Hc Hhas Hl. enter_cache_lookup Hdec Hc.
  rewrite Hhas. unfold getTransactionReceipt. now rewrite Hl.
Qed.

Lemma run_not_found (paymentData hash : value) :
  JSON_parse_base64 h paymentHeader = Returns paymentData ->
  carries paymentData hash ->
  Map_has (verifiedPayments w) hash = false ->
  ledger h (List.length (receiptQueries w)) hash = Returns None ->
  verifyPayment paymentHeader h w =
    (Returns (invalid "Transaction failed or not found"), queried hash w).
Proof.
  intros Hdec Hc Hhas Hl. enter_cache_lookup Hdec Hc.
  rewrite Hhas. unfold getTransactionReceipt. now rewrite Hl.
Qed.

Lemma run_reverted (paymentData hash : value)
    (receipt : Viem.TransactionReceipt) :
  JSON_parse_base64 h paymentHeader = Returns paymentData ->
  carries paymentData hash ->
  Map_has (verifiedPayments w) hash = false ->
  ledger h (List.length (receiptQueries w)) hash = Returns (Some receipt) ->
  Viem.status receipt = Viem.reverted ->
  verifyPayment paymentHeader h w =
    (Returns (invalid "Transaction failed or not found"), queried hash w).
Proof.
  intros Hdec Hc Hhas Hl Hs. enter_cache_lookup Hdec Hc.
  rewrite Hhas. unfold getTransactionReceipt. now rewrite Hl, Hs.
Qed.

Lemma run_destination (paymentData hash : value)
    (receipt : Viem.TransactionReceipt) :
  JSON_parse_base64 h paymentHeader = Returns paymentData ->
  carries paymentData hash ->
  Map_has (verifiedPayments w) hash = false ->
  ledger h (List.length (receiptQueries w)) hash = Returns (Some receipt) ->
  Viem.status receipt = Viem.success ->
  isValidTransfer receipt = false ->
  verifyPayment paymentHeader h w =
    (Returns (invalid "Invalid transfer details"), queried hash w).
Proof.
  intros Hdec Hc Hhas Hl Hs Hv. enter_cache_lookup Hdec Hc.
  rewrite Hhas. unfold getTransactionReceipt. now rewrite Hl, Hs, Hv.
Qed.

Lemma run_verified (paymentData hash : value)
    (receipt : Viem.TransactionReceipt) :
  JSON_parse_base64 h paymentHeader = Returns paymentData ->
  carries paymentData hash ->
  Map_has (verifiedPayments w) hash = false ->
  ledger h (List.length (receiptQueries w)) hash = Returns (Some receipt) ->
  Viem.status receipt = Viem.success ->
  isValidTransfer receipt = true ->
  verifyPayment paymentHeader h w =
    (Returns (valid_fresh hash),
     stored hash (entry_of paymentData (clock h (clockReads w)))
       (tick (queried hash w))).
Proof.
  intros Hdec Hc Hhas Hl Hs Hv.
  pose proof Hc as (_ & _ & Hpay & _).
  apply get_property_returns in Hpay.
  enter_cache_lookup Hdec Hc.
  rewrite Hhas. unfold getTransactionReceipt. rewrite Hl, Hs, Hv.
  cbn [Viem.is_success negb]. unfold Date_now, verifiedPayments_set.
  now rewrite !(get_property_field _ _ Hpay).
Qed.

(** Every call takes exactly one of the exits, and returns. *)
Lemma verifyPayment_exit :
  exists r w',
    verifyPayment paymentHeader h w = (Returns r, w')
    /\ verify_exit h w paymentHeader r w'.
Proof.
  destruct (JSON_parse_base64 h paymentHeader) as [d|e] eqn:Hdec.
  2:{ by_exit run_fault exit_fault. }
  destruct (nullish d) eqn:Hn.
  { destruct (destructure d) as [f|e] eqn:Hd.
    - destruct (nullish_destructure _ Hn) as [e He]. congruence.
    - by_exit run_fault exit_fault. }
  destruct (protocol_match d) eqn:Hm.
  2:{ by_exit run_protocol exit_protocol. }
  destruct (get_property (field d "payload") "txHash") as [k|e] eqn:Hk.
  2:{ by_exit run_fault exit_fault. }
  destruct (truthy k) eqn:Ht.
  2:{ by_exit run_no_hash exit_no_hash. }
  assert (carries d k) as Hc by (now repeat split).
  destruct (Map_has (verifiedPayments w) k) eqn:Hhas.
  { by_exit run_cached exit_cached. }
  destruct (ledger h (List.length (receiptQueries w)) k) as [[r|]|e] eqn:Hl.
  - destruct (Viem.status r) eqn:Hs.
    + destruct (isValidTransfer r) eqn:Hv.
      * by_exit run_verified exit_verified.
      * by_exit run_destination exit_destination.
    + by_exit run_reverted exit_reverted.
  - by_exit run_not_found exit_not_found.
  - by_exit run_ledger_fault exit_ledger_fault.
Qed.

End VerifierExits.

Lemma isValidTransfer_true (receipt : Viem.TransactionReceipt) :
  isValidTransfer receipt = true <->
  exists a, Viem.to receipt = Some a
            /\ same_address a (Config.assetAddress X402_CONFIG).
Proof.
  unfold isValidTransfer, same_address.
  destruct (Viem.to receipt) as [a|].
  - rewrite String.eqb_eq. split.
    + intros H. now exists a.
    + now intros (a' & [= <-] & H).
  - split; [discriminate|]. now intros (a & [=] & _).
Qed.

Lemma isValidTransfer_false (receipt : Viem.TransactionReceipt) :
  isValidTransfer receipt = false <->
  forall a, Viem.to receipt = Some a ->
            ~ same_address a (Config.assetAddress X402_CONFIG).
Proof.
  rewrite <- not_true_iff_false, isValidTransfer_true. split.
  - intros H a Ha Hs. apply H. now exists a.
  - intros H (a & Ha & Hs). now apply (H a).
Qed.

(** ** The verifier: idempotence *)

(** C1, as the code has it. Once a transaction hash is a key of
    [verifiedPayments], a well-formed proof that carries it is accepted
    from the cache: the result is [{ isValid: true, cached: true }], which
    has no [txHash] property, and the process is left as it was, so that
    no receipt has been asked of the ledger and the cache is unchanged. *)
Theorem idempotent_verification
    (h : Host) (w : World) (paymentHeader : string)
    (paymentData hash : value) :
  JSON_parse_base64 h paymentHeader = Returns paymentData ->
  carries paymentData hash ->
  Map_has (verifiedPayments w) hash = true ->
  verifyPayment paymentHeader h w =
    (Returns {| isValid := true; reason := None;
                cached := Some true; txHash := None |},
     w).
Proof.
  intros Hdec Hc Hhas. exact (run_cached h w paymentHeader _ _ Hdec Hc Hhas).
Qed.

Lemma idempotent_verification_witness :
  verifyPayment Sample.header_paid_again Sample.host Sample.paid_world =
    (Returns {| isValid := true; reason := None;
                cached := Some true; txHash := None |},
     Sample.paid_world).
Proof.
  apply (idempotent_verification Sample.host Sample.paid_world
           Sample.header_paid_again
           (Sample.proof "sei-testnet" Sample.tx_paid "1" Sample.other_payer)
           (VStr Sample.tx_paid)).
  - reflexivity.
  - repeat split; reflexivity.
  - reflexivity.
Defined.

(** C1 as stated fails on the echo of the transaction hash: [tx_paid] is
    in the cache after a first verification, the second proof is
    well-formed and carries it, and the result is valid and cached but
    has no [txHash]. *)
Lemma idempotent_verification_counterexample :
  Map_has (verifiedPayments Sample.paid_world) (VStr Sample.tx_paid) = true
  /\ JSON_parse_base64 Sample.host Sample.header_paid_again =
       Returns (Sample.proof "sei-testnet" Sample.tx_paid "1"
                  Sample.other_payer)
  /\ carries
       (Sample.proof "sei-testnet" Sample.tx_paid "1" Sample.other_payer)
       (VStr Sample.tx_paid)
  /\ exists r,
       verifyPayment Sample.header_paid_again Sample.host Sample.paid_world
         = (Returns r, Sample.paid_world)
       /\ isValid r = true
       /\ cached r = Some true
       /\ txHash r <> Some (VStr Sample.tx_paid).
Proof.
  split; [reflexivity|]. split; [reflexivity|].
  split; [repeat split; reflexivity|].
  eexists. split; [reflexivity|]. cbn. repeat split. discriminate.
Qed.

(** A fresh successful verification makes the hash a key of the cache
    (hashes are strings, compared by content), and keys are never
    removed: this is how a hash comes to be served from the cache. *)
Lemma verified_then_cached
    (h : Host) (w w' : World) (paymentHeader : string) (hash : value) :
  primitive hash = true ->
  verifyPayment paymentHeader h w = (Returns (valid_fresh hash), w') ->
  Map_has (verifiedPayments w') hash = true.
Proof.
  intros Hp Hrun.
  destruct (verifyPayment_exit h w paymentHeader) as (r & w1 & Hrun' & Hexit).
  rewrite Hrun in Hrun'. injection Hrun' as <- <-.
  inversion Hexit; subst; cbn [stored verifiedPayments].
  now apply Map_has_set_same.
Qed.

Lemma cache_keys_persist
    (h : Host) (w : World) (paymentHeader : string) (hash : value) :
  Map_has (verifiedPayments w) hash = true ->
  Map_has (verifiedPayments (snd (verifyPayment paymentHeader h w))) hash
    = true.
Proof.
  intros Hhas.
  destruct (verifyPayment_exit h w paymentHeader) as (r & w' & Hrun & Hexit).
  rewrite Hrun. cbn [snd].
  inversion Hexit; subst; cbn [stored queried tick verifiedPayments]; auto.
  now apply Map_has_set_other.
Qed.

(** ** The verifier: protocol check *)

(** C2, as the code has it. A decoded proof (any parsed value but
    [null]) whose version is not 1, or whose scheme is not ["exact"], or
    whose network is not the configured one, is rejected with the reason
    ["Invalid payment format or network"], whatever its other fields
    hold. The answer is the same in every state of the process and leaves
    it untouched: neither the cache nor the ledger plays a part. *)
Theorem protocol_gate
    (h : Host) (w : World) (paymentHeader : string) (paymentData : value) :
  JSON_parse_base64 h paymentHeader = Returns paymentData ->
  nullish paymentData = false ->
  strict_equal (field paymentData "x402Version") (VNum 1) = false
  \/ strict_equal (field paymentData "scheme") (VStr "exact") = false
  \/ strict_equal (field paymentData "network")
       (VStr (Config.network X402_CONFIG)) = false ->
  verifyPayment paymentHeader h w =
    (Returns {| isValid := false;
                reason := Some "Invalid payment format or network";
                cached := None; txHash := None |},
     w).
Proof.
  intros Hdec Hn Hbad.
  apply (run_protocol h w paymentHeader paymentData Hdec Hn).
  unfold protocol_match.
  destruct Hbad as [E|[E|E]]; rewrite E; cbn;
    now rewrite ?andb_false_r.
Qed.

Lemma protocol_gate_witness :
  verifyPayment Sample.header_other_network Sample.host Sample.paid_world =
    (Returns {| isValid := false;
                reason := Some "Invalid payment format or network";
                cached := None; txHash := None |},
     Sample.paid_world).
Proof.
  apply (protocol_gate Sample.host Sample.paid_world
           Sample.header_other_network
           (Sample.proof "other-network" Sample.tx_paid "1000" Sample.payer)).
  - reflexivity.
  - reflexivity.
  - right. right. reflexivity.
Defined.

(** C2 as stated fails on the wording of the reason: a proof for another
    network is rejected, and the reason it is given starts with a capital
    letter. *)
Lemma protocol_gate_counterexample :
  JSON_parse_base64 Sample.host Sample.header_other_network =
    Returns (Sample.proof "other-network" Sample.tx_paid "1000" Sample.payer)
  /\ strict_equal
       (field (Sample.proof "other-network" Sample.tx_paid "1000"
                 Sample.payer) "network")
       (VStr (Config.network X402_CONFIG)) = false
  /\ exists r,
       verifyPayment Sample.header_other_network Sample.host initial
         = (Returns r, initial)
       /\ isValid r = false
       /\ reason r = Some "Invalid payment format or network"
       /\ reason r <> Some "invalid payment format or network".
Proof.
  split; [reflexivity|]. split; [reflexivity|].
  eexists. split; [reflexivity|]. cbn. repeat split. discriminate.
Qed.

(** ** The verifier: destination check *)

(** C3, as the code has it. For a well-formed proof whose hash is not in
    the cache and whose receipt exists with status [success]: if the
    receipt has no destination that equals the configured asset address
    up to letter case, the proof is rejected with the reason
    ["Invalid transfer details"]; if it has one, the proof is accepted,
    the result carries the hash, and the cache receives, under that hash,
    the entry made of the clock reading and the claimed amount and
    payer. Either way one receipt has been asked of the ledger. *)
Theorem destination_check
    (h : Host) (w : World) (paymentHeader : string)
    (paymentData hash : value) (receipt : Viem.TransactionReceipt) :
  JSON_parse_base64 h paymentHeader = Returns paymentData ->
  carries paymentData hash ->
  Map_has (verifiedPayments w) hash = false ->
  ledger h (List.length (receiptQueries w)) hash = Returns (Some receipt) ->
  Viem.status receipt = Viem.success ->
  ((forall a, Viem.to receipt = Some a ->
              ~ same_address a (Config.assetAddress X402_CONFIG)) ->
   verifyPayment paymentHeader h w =
     (Returns {| isValid := false;
                 reason := Some "Invalid transfer details";
                 cached := None; txHash := None |},
      queried hash w))
  /\
  ((exists a, Viem.to receipt = Some a
              /\ same_address a (Config.assetAddress X402_CONFIG)) ->
   exists w',
     verifyPayment paymentHeader h w =
       (Returns {| isValid := true; reason := None;
                   cached := None; txHash := Some hash |},
        w')
     /\ verifiedPayments w' =
          Map_set (verifiedPayments w) hash
            {| timestamp := clock h (clockReads w);
               amount := field (field paymentData "payload") "amount";
               from := field (field paymentData "payload") "from" |}
     /\ receiptQueries w' = hash :: receiptQueries w).
Proof.
  intros Hdec Hc Hhas Hl Hs. split.
  - intros Hto. apply isValidTransfer_false in Hto.
    exact (run_destination h w paymentHeader _ _ _ Hdec Hc Hhas Hl Hs Hto).
  - intros Hto. apply isValidTransfer_true in Hto.
    eexists. split.
    + exact (run_verified h w paymentHeader _ _ _ Hdec Hc Hhas Hl Hs Hto).
    + split; reflexivity.
Qed.

Lemma destination_check_witness :
  exists w',
    verifyPayment Sample.header_paid Sample.host initial =
      (Returns {| isValid := true; reason := None; cached := None;
                  txHash := Some (VStr Sample.tx_paid) |},
       w')
    /\ verifiedPayments w' =
         [ (VStr Sample.tx_paid,
            {| timestamp := 1700000000000;
               amount := VStr "1000";
               from := VStr Sample.payer |}) ]
    /\ receiptQueries w' = [VStr Sample.tx_paid].
Proof.
  refine (proj2
    (destination_check Sample.host initial Sample.header_paid
       (Sample.proof "sei-testnet" Sample.tx_paid "1000" Sample.payer)
       (VStr Sample.tx_paid)
       {| Viem.status := Viem.success;
          Viem.to := Some "0x4fcf1784b31630811181f670aea7a7bef803eaed" |}
       _ _ _ _ _) _).
  - reflexivity.
  - repeat split; reflexivity.
  - reflexivity.
  - reflexivity.
  - reflexivity.
  - eexists. split; reflexivity.
Defined.

(** C3 as stated fails on the wording of the reason: [tx_elsewhere]
    succeeded on the ledger with the recipient's account, not the asset
    contract, as destination; the proof is rejected, and the reason it is
    given starts with a capital letter. *)
Lemma destination_check_counterexample :
  ledger Sample.host 0 (VStr Sample.tx_elsewhere) =
    Returns (Some {|
      Viem.status := Viem.success;
      Viem.to := Some "0x9dc2aa0038830c052253161b1ee49b9dd449bd66" |})
  /\ ~ same_address "0x9dc2aa0038830c052253161b1ee49b9dd449bd66"
         (Config.assetAddress X402_CONFIG)
  /\ exists r w',
       verifyPayment Sample.header_elsewhere Sample.host initial
         = (Returns r, w')
       /\ isValid r = false
       /\ reason r = Some "Invalid transfer details"
       /\ reason r <> Some "invalid transfer details".
Proof.
  split; [reflexivity|]. split; [discriminate|].
  eexists _, _. split; [reflexivity|]. cbn. repeat split. discriminate.
Qed.

(** ** The verifier: faults of the submitted header *)

(** C4, as the code has it. When the header does not decode (the base64
    text or the JSON in it is malformed), when it decodes to [null], or
    when a proof that passes the protocol check has no payload object,
    the exception is caught and the proof is rejected with the reason
    ["Verification error: "] followed by the message of the exception.
    The process is left as it was. *)
Theorem malformed_proof
    (h : Host) (w : World) (paymentHeader : string) (e : Error) :
  proof_fault h paymentHeader e ->
  verifyPayment paymentHeader h w =
    (Returns {| isValid := false;
                reason := Some ("Verification error: " ++ message e);
                cached := None; txHash := None |},
     w).
Proof.
  exact (run_fault h w paymentHeader e).
Qed.

Lemma malformed_proof_witness :
  verifyPayment Sample.header_garbage Sample.host initial =
    (Returns {| isValid := false;
                reason :=
                  Some "Verification error: Unexpected end of JSON input";
                cached := None; txHash := None |},
     initial).
Proof.
  apply (malformed_proof Sample.host initial Sample.header_garbage
           {| message := "Unexpected end of JSON input" |}).
  apply fault_decode. reflexivity.
Defined.

(** C4 as stated fails on the reason: the header ["!!!"] does not
    decode, and the reason of the rejection is not ["malformed proof"]
    but the message of the parser behind a fixed prefix. *)
Lemma malformed_proof_counterexample :
  JSON_parse_base64 Sample.host Sample.header_garbage =
    Throws {| message := "Unexpected end of JSON input" |}
  /\ exists r,
       verifyPayment Sample.header_garbage Sample.host initial
         = (Returns r, initial)
       /\ isValid r = false
       /\ reason r = Some "Verification error: Unexpected end of JSON input"
       /\ reason r <> Some "malformed proof".
Proof.
  split; [reflexivity|].
  eexists. split; [reflexivity|]. cbn. repeat split. discriminate.
Qed.

(** A proof without [payload] is one of these faults; one without
    [txHash] in its payload is not, and has a reason of its own. *)
Example missing_payload :
  fst (verifyPayment Sample.header_no_payload Sample.host initial) =
    Returns (invalid
      ("Verification error: "
       ++ "Cannot read properties of undefined (reading 'txHash')")).
Proof. reflexivity. Qed.

(** ** The verifier: what the verdict depends on *)

(** C9. Two well-formed proofs for the same transaction hash get the
    same result from the same process, whatever amount and payer each
    claims (the hash need not even be new to the cache). In particular a
    new hash whose receipt succeeded with the asset contract as
    destination is accepted under any claimed amount and payer. *)
Theorem verdict_ignores_amount_and_payer
    (h : Host) (w : World) (header1 header2 : string)
    (proof1 proof2 hash : value) :
  JSON_parse_base64 h header1 = Returns proof1 ->
  JSON_parse_base64 h header2 = Returns proof2 ->
  carries proof1 hash ->
  carries proof2 hash ->
  fst (verifyPayment header1 h w) = fst (verifyPayment header2 h w)
  /\ (forall receipt a,
        Map_has (verifiedPayments w) hash = false ->
        ledger h (List.length (receiptQueries w)) hash
          = Returns (Some receipt) ->
        Viem.status receipt = Viem.success ->
        Viem.to receipt = Some a ->
        same_address a (Config.assetAddress X402_CONFIG) ->
        isValid_of (fst (verifyPayment header1 h w)) = Some true
        /\ isValid_of (fst (verifyPayment header2 h w)) = Some true).
Proof.
  intros Hd1 Hd2 Hc1 Hc2. split.
  - destruct (Map_has (verifiedPayments w) hash) eqn:Hhas.
    { now rewrite (run_cached h w header1 _ _ Hd1 Hc1 Hhas),
                  (run_cached h w header2 _ _ Hd2 Hc2 Hhas). }
    destruct (ledger h (List.length (receiptQueries w)) hash)
      as [[r|]|e] eqn:Hl.
    + destruct (Viem.status r) eqn:Hs.
      * destruct (isValidTransfer r) eqn:Hv.
        -- now rewrite
             (run_verified h w header1 _ _ _ Hd1 Hc1 Hhas Hl Hs Hv),
             (run_verified h w header2 _ _ _ Hd2 Hc2 Hhas Hl Hs Hv).
        -- now rewrite
             (run_destination h w header1 _ _ _ Hd1 Hc1 Hhas Hl Hs Hv),
             (run_destination h w header2 _ _ _ Hd2 Hc2 Hhas Hl Hs Hv).
      * now rewrite (run_reverted h w header1 _ _ _ Hd1 Hc1 Hhas Hl Hs),
                    (run_reverted h w header2 _ _ _ Hd2 Hc2 Hhas Hl Hs).
    + now rewrite (run_not_found h w header1 _ _ Hd1 Hc1 Hhas Hl),
                  (run_not_found h w header2 _ _ Hd2 Hc2 Hhas Hl).
    + now rewrite (run_ledger_fault h w header1 _ _ _ Hd1 Hc1 Hhas Hl),
                  (run_ledger_fault h w header2 _ _ _ Hd2 Hc2 Hhas Hl).
  - intros r a Hhas Hl Hs Hto Hsame.
    assert (isValidTransfer r = true) as Hv
      by (apply isValidTransfer_true; now exists a).
    now rewrite (run_verified h w header1 _ _ _ Hd1 Hc1 Hhas Hl Hs Hv),
                (run_verified h w header2 _ _ _ Hd2 Hc2 Hhas Hl Hs Hv).
Qed.

Lemma verdict_ignores_amount_and_payer_witness :
  fst (verifyPayment Sample.header_paid Sample.host initial)
    = fst (verifyPayment Sample.header_paid_again Sample.host initial)
  /\ isValid_of (fst (verifyPayment Sample.header_paid_again Sample.host
                        initial)) = Some true.
Proof.
  destruct (verdict_ignores_amount_and_payer Sample.host initial
              Sample.header_paid Sample.header_paid_again
              (Sample.proof "sei-testnet" Sample.tx_paid "1000" Sample.payer)
              (Sample.proof "sei-testnet" Sample.tx_paid "1"
                 Sample.other_payer)
              (VStr Sample.tx_paid))
    as [Hsame Haccepted].
  - reflexivity.
  - reflexivity.
  - repeat split; reflexivity.
  - repeat split; reflexivity.
  - split; [exact Hsame|].
    refine (proj2 (Haccepted
      {| Viem.status := Viem.success;
         Viem.to := Some "0x4fcf1784b31630811181f670aea7a7bef803eaed" |}
      "0x4fcf1784b31630811181f670aea7a7bef803eaed" _ _ _ _ _));
      reflexivity.
Defined.

(** ** The verifier: when the cache changes *)

(** C10. Every call of the verifier returns a result. When the result is
    a rejection, for whatever reason, [verifiedPayments] is exactly what
    it was before the call. When the call has changed
    [verifiedPayments], the result is a fresh acceptance: the proof was
    well-formed, its hash was not in the cache, the ledger returned a
    receipt for it with status [success] and the asset address as
    destination, and the change is the one entry set under that hash. *)
Theorem cache_unchanged_on_failure
    (h : Host) (w : World) (paymentHeader : string) :
  exists r w',
    verifyPayment paymentHeader h w = (Returns r, w')
    /\ (isValid r = false -> verifiedPayments w' = verifiedPayments w)
    /\ (verifiedPayments w' <> verifiedPayments w ->
        exists paymentData hash receipt,
          JSON_parse_base64 h paymentHeader = Returns paymentData
          /\ carries paymentData hash
          /\ Map_has (verifiedPayments w) hash = false
          /\ ledger h (List.length (receiptQueries w)) hash
               = Returns (Some receipt)
          /\ Viem.status receipt = Viem.success
          /\ isValidTransfer receipt = true
          /\ r = {| isValid := true; reason := None;
                    cached := None; txHash := Some hash |}
          /\ verifiedPayments w' =
               Map_set (verifiedPayments w) hash
                 (entry_of paymentData (clock h (clockReads w)))).
Proof.
  destruct (verifyPayment_exit h w paymentHeader) as (r & w' & Hrun & Hexit).
  exists r, w'. split; [exact Hrun|].
  inversion Hexit; subst; cbn [queried verifiedPayments]; split;
    try reflexivity; try discriminate; try congruence.
  intros _. exists paymentData, hash, receipt.
  repeat (split; [assumption || reflexivity|]). reflexivity.
Qed.

(** ** The issuer *)

Lemma amount_in_units_value (h : Host) (w : World) :
  amount_in_units h w = (Returns 1000%Z, w).
Proof. reflexivity. Qed.

(** What one call of [generatePaymentChallenge] does. *)
Lemma generatePaymentChallenge_run (h : Host) (w : World) :
  exists challenge,
    generatePaymentChallenge h w = (Returns challenge, draw (tick w))
    /\ references challenge =
         [make_reference (clock h (clockReads w))
            (random36 h (randomDraws w))]
    /\ error challenge = None.
Proof.
  unfold generatePaymentChallenge, bind, Date_now, Math_random_toString36.
  cbn. eexists. split; [reflexivity|]. split; reflexivity.
Qed.

(** C7. Every call of the issuer returns a challenge of protocol
    version 1 with exactly one payment option: scheme ["exact"], the
    amount ["1000"] (0.001 of the 6-decimal asset in its smallest unit),
    payable to the configured recipient, with a timeout of 300 seconds,
    in the configured asset. *)
Theorem challenge_contents (h : Host) (w : World) :
  exists challenge option w',
    generatePaymentChallenge h w = (Returns challenge, w')
    /\ x402Version challenge = 1%Z
    /\ accepts challenge = [option]
    /\ scheme option = "exact"
    /\ maxAmountRequired option = "1000"
    /\ payTo option = Config.recipient X402_CONFIG
    /\ payTo option = "0x9dC2aA0038830c052253161B1EE49B9dD449bD66"
    /\ maxTimeoutSeconds option = 300%Z
    /\ asset option = Config.assetAddress X402_CONFIG
    /\ asset option = "0x4fCF1784B31630811181f670Aea7A7bEF803eaED".
Proof.
  unfold generatePaymentChallenge, bind, Date_now, Math_random_toString36.
  cbn. eexists _, _, _. split; [reflexivity|]. cbn. repeat split.
Qed.

(** *** References *)

Lemma uint_digits (d : Decimal.uint) :
  Viem.all_digits (NilEmpty.string_of_uint d) = true.
Proof.
  induction d; cbn; auto.
Qed.

(** A run of digits closed by a dash can be read back off the front of a
    string in one way only. *)
Lemma digits_dash_inj (a b s t : string) :
  Viem.all_digits a = true -> Viem.all_digits b = true ->
  a ++ "-" ++ s = b ++ "-" ++ t -> a = b /\ s = t.
Proof.
  revert b. induction a as [|c a IH]; intros [|c' b] Ha Hb E; cbn in *.
  - injection E as ->. now split.
  - injection E as <- _. discriminate.
  - injection E as -> _. discriminate.
  - injection E as -> E.
    apply andb_true_iff in Ha as [_ Ha]. apply andb_true_iff in Hb as [_ Hb].
    destruct (IH b Ha Hb E) as [-> ->]. now split.
Qed.

Lemma integer_toString_inj (m n : Z) :
  integer_toString m = integer_toString n -> m = n.
Proof.
  unfold integer_toString. intros E.
  apply DecimalZ.to_int_inj.
  apply (f_equal NilEmpty.int_of_string) in E.
  rewrite !NilEmpty.isi in E. now injection E.
Qed.

Lemma uint_string_starts_with_digit (d : Decimal.uint) (s t : string) :
  d <> Decimal.Nil ->
  NilEmpty.string_of_uint d ++ s <> String "-" t.
Proof.
  destruct d; cbn; try congruence; intros _ [=].
Qed.

Lemma to_int_nonnil (n : Z) :
  match Z.to_int n with
  | Decimal.Pos d | Decimal.Neg d => d <> Decimal.Nil
  end.
Proof.
  destruct n; cbn; try apply DecimalPos.Unsigned.to_uint_nonnil.
  discriminate.
Qed.

(** The rendering of an integer, closed by a dash, can be read back off
    the front of a string in one way only. *)
Lemma integer_dash_inj (m n : Z) (s t : string) :
  integer_toString m ++ "-" ++ s = integer_toString n ++ "-" ++ t ->
  m = n /\ s = t.
Proof.
  intros E.
  enough (integer_toString m = integer_toString n /\ s = t) as [Hi Hs]
    by (split; [now apply integer_toString_inj|exact Hs]).
  unfold integer_toString in *.
  pose proof (to_int_nonnil m) as Hm. pose proof (to_int_nonnil n) as Hn.
  destruct (Z.to_int m) as [dm|dm], (Z.to_int n) as [dn|dn];
    cbn [NilEmpty.string_of_int] in *.
  - apply digits_dash_inj in E; auto using uint_digits.
  - exfalso. now apply uint_string_starts_with_digit in E.
  - exfalso. symmetry in E. now apply uint_string_starts_with_digit in E.
  - cbn in E. injection E as E.
    apply digits_dash_inj in E; auto using uint_digits.
    destruct E as [-> ->]. now split.
Qed.

Lemma make_reference_inj (now now' : Z) (random random' : string) :
  make_reference now random = make_reference now' random' <->
  now = now' /\ substring 7 random = substring 7 random'.
Proof.
  unfold make_reference. split.
  - intros E. cbn [append] in E. injection E as E.
    now apply integer_dash_inj.
  - now intros [-> ->].
Qed.

Lemma issued_references_run (h : Host) (w : World) :
  issued_references h w =
    [make_reference (fst (reference_source h w))
       (random36 h (randomDraws w))].
Proof.
  unfold issued_references.
  destruct (generatePaymentChallenge_run h w) as (c & -> & Hr & _).
  exact Hr.
Qed.

Lemma reference_source_inj (h : Host) (w w' : World) :
  issued_references h w = issued_references h w' <->
  reference_source h w = reference_source h w'.
Proof.
  rewrite !issued_references_run. unfold reference_source. cbn [fst].
  split.
  - intros E. apply (f_equal (hd "")) in E. cbn [hd] in E.
    apply make_reference_inj in E as [-> ->]. reflexivity.
  - intros [= E1 E2]. f_equal. apply make_reference_inj. now split.
Qed.

(** C8, as the code has it. Take any number of challenges, each issued
    in some state of the process. Their references are pairwise distinct
    exactly when no two of them were issued at the same clock reading
    with the same kept part of the random number: the reference is a
    one-to-one function of these two, and of nothing else. *)
Theorem reference_uniqueness (h : Host) (states : list World) :
  NoDup (flat_map (issued_references h) states) <->
  NoDup (map (reference_source h) states).
Proof.
  induction states as [|w ws IH]; cbn [flat_map map].
  - split; constructor.
  - rewrite issued_references_run at 1. cbn [app].
    split; intros Hnd; inversion Hnd as [|x l Hnin Hrest]; subst;
      constructor; try (now apply IH).
    + intros Hin. apply Hnin. apply in_flat_map.
      apply in_map_iff in Hin as (w' & Hsrc & Hw').
      exists w'. split; [exact Hw'|].
      symmetry in Hsrc. apply reference_source_inj in Hsrc.
      rewrite <- Hsrc, issued_references_run. now left.
    + intros Hin. apply Hnin.
      apply in_flat_map in Hin as (w' & Hw' & Hin).
      apply in_map_iff. exists w'. split; [|exact Hw'].
      apply reference_source_inj.
      rewrite !issued_references_run in *.
      destruct Hin as [<-|[]]. reflexivity.
Qed.

(** C8 as stated fails: on a host whose clock stands still while the
    generator draws 0.5 and then 0.25, two challenges issued one after
    the other carry the same reference, since [substring(7)] keeps
    nothing of ["0.i"] and of ["0.9"]. *)
Lemma reference_uniqueness_counterexample :
  exists c1 w1 c2 w2,
    generatePaymentChallenge Sample.host_same_millisecond initial
      = (Returns c1, w1)
    /\ generatePaymentChallenge Sample.host_same_millisecond w1
         = (Returns c2, w2)
    /\ references c1 = ["sei-1700000000000-"]
    /\ references c2 = ["sei-1700000000000-"]
    /\ ~ NoDup (references c1 ++ references c2).
Proof.
  eexists _, _, _, _. split; [lazy; reflexivity|].
  split; [lazy; reflexivity|].
  split; [reflexivity|]. split; [reflexivity|].
  cbn. intros Hnd. inversion Hnd as [|x l Hnin _]; subst.
  apply Hnin. now left.
Qed.

(** ** The request handler *)

(** C6. A request without the [X-Payment] header is answered with status
    402, never with 200; the body is the challenge the issuer generates
    at that moment, from the current clock reading and a new random draw,
    with no [error]. No proof has been looked at: cache and ledger log
    are as they were. *)
Theorem fail_closed_on_absent_proof
    (h : Host) (w : World) (req : NextRequest) :
  header_x_payment req = None ->
  exists response challenge w',
    GET req h w = (Returns response, w')
    /\ status response = 402%Z
    /\ status response <> 200%Z
    /\ body response = ChallengeBody challenge
    /\ generatePaymentChallenge h w = (Returns challenge, w')
    /\ references challenge =
         [make_reference (clock h (clockReads w))
            (random36 h (randomDraws w))]
    /\ error challenge = None
    /\ verifiedPayments w' = verifiedPayments w
    /\ receiptQueries w' = receiptQueries w.
Proof.
  intros Hreq.
  destruct (generatePaymentChallenge_run h w) as (c & Hrun & Hrefs & Herr).
  exists (json (ChallengeBody c) 402), c, (draw (tick w)).
  unfold GET. rewrite Hreq. unfold bind at 1. rewrite Hrun.
  repeat split; auto. discriminate.
Qed.

Lemma fail_closed_on_absent_proof_witness :
  exists response challenge w',
    GET {| header_x_payment := None |} Sample.host Sample.paid_world
      = (Returns response, w')
    /\ status response = 402%Z
    /\ status response <> 200%Z
    /\ body response = ChallengeBody challenge
    /\ generatePaymentChallenge Sample.host Sample.paid_world
         = (Returns challenge, w')
    /\ references challenge = ["sei-1700000000001-82mvyr"]
    /\ error challenge = None
    /\ verifiedPayments w' = verifiedPayments Sample.paid_world
    /\ receiptQueries w' = receiptQueries Sample.paid_world.
Proof.
  apply (fail_closed_on_absent_proof Sample.host Sample.paid_world
           {| header_x_payment := None |}).
  reflexivity.
Defined.

(** An empty header is treated like an absent one. *)
Lemma empty_header_is_absent (h : Host) (w : World) :
  GET {| header_x_payment := Some "" |} h w
    = GET {| header_x_payment := None |} h w.
Proof. reflexivity. Qed.

(** What the handler answers to a submitted proof, given what the
    verifier said. *)
Lemma GET_rejected
    (h : Host) (w w1 : World) (req : NextRequest) (paymentHeader : string)
    (why : string) :
  header_x_payment req = Some paymentHeader ->
  paymentHeader <> "" ->
  why <> "" ->
  verifyPayment paymentHeader h w = (Returns (invalid why), w1) ->
  exists challenge w',
    GET req h w = (Returns {| status := 402;
                              body := ChallengeBody challenge |}, w')
    /\ error challenge = Some why.
Proof.
  intros Hreq Hne Hwhy Hrun.
  destruct (generatePaymentChallenge_run h w1) as (c & Hgen & _ & _).
  exists (with_error c why), (draw (tick w1)).
  unfold GET. rewrite Hreq.
  apply String.eqb_neq in Hne. rewrite Hne.
  unfold bind at 1. rewrite Hrun. cbn [isValid invalid negb reason].
  unfold bind at 1. rewrite Hgen. unfold reason_or_default.
  apply String.eqb_neq in Hwhy. rewrite Hwhy. split; reflexivity.
Qed.

Lemma GET_accepted
    (h : Host) (w w1 : World) (req : NextRequest) (paymentHeader : string)
    (verification : VerificationResult) :
  header_x_payment req = Some paymentHeader ->
  paymentHeader <> "" ->
  verifyPayment paymentHeader h w = (Returns verification, w1) ->
  isValid verification = true ->
  exists weatherData,
    GET req h w = (Returns {| status := 200;
                              body := WeatherBody weatherData |}, tick w1)
    /\ Weather.payment weatherData = verification.
Proof.
  intros Hreq Hne Hrun Hvalid.
  eexists. unfold GET. rewrite Hreq.
  apply String.eqb_neq in Hne. rewrite Hne.
  unfold bind at 1. rewrite Hrun, Hvalid. cbn [negb].
  split; reflexivity.
Qed.

(** The verifier never throws: whatever goes wrong inside it, the ledger
    included, comes back as a rejection. *)
Lemma verifyPayment_returns (h : Host) (w : World) (paymentHeader : string) :
  exists r w', verifyPayment paymentHeader h w = (Returns r, w').
Proof.
  destruct (verifyPayment_exit h w paymentHeader) as (r & w' & Hrun & _).
  now exists r, w'.
Qed.

(** When the ledger call itself throws, the message of the exception
    reaches the client: it is the [error] of the re-issued challenge,
    behind a fixed prefix. *)
Lemma ledger_fault_response
    (h : Host) (w : World) (req : NextRequest) (paymentHeader : string)
    (paymentData hash : value) (e : Error) :
  header_x_payment req = Some paymentHeader ->
  paymentHeader <> "" ->
  JSON_parse_base64 h paymentHeader = Returns paymentData ->
  carries paymentData hash ->
  Map_has (verifiedPayments w) hash = false ->
  ledger h (List.length (receiptQueries w)) hash = Throws e ->
  exists challenge w',
    GET req h w = (Returns {| status := 402;
                              body := ChallengeBody challenge |}, w')
    /\ error challenge = Some ("Verification error: " ++ message e).
Proof.
  intros Hreq Hne Hdec Hc Hhas Hl.
  apply (GET_rejected h w (queried hash w) req paymentHeader); auto.
  - discriminate.
  - exact (run_ledger_fault h w paymentHeader _ _ _ Hdec Hc Hhas Hl).
Qed.

(** C5 on the sample host: the ledger endpoint fails while the receipt of
    [tx_unreachable] is fetched. The handler answers 402 with a new
    challenge, and the [error] of that challenge spells out the failure
    of the endpoint, its address included. *)
Theorem ledger_fault_detail_reaches_client :
  ledger Sample.host 0 (VStr Sample.tx_unreachable)
    = Throws Sample.rpc_failure
  /\ exists challenge w',
       GET {| header_x_payment := Some Sample.header_unreachable |}
           Sample.host initial
         = (Returns {| status := 402; body := ChallengeBody challenge |}, w')
       /\ error challenge =
            Some ("Verification error: HTTP request failed. Status: 503 "
                  ++ "URL: https://evm-rpc-testnet.sei-apis.com")
       /\ error challenge =
            Some ("Verification error: " ++ message Sample.rpc_failure).
Proof.
  split; [reflexivity|].
  eexists _, _. split; [lazy; reflexivity|]. split; reflexivity.
Qed.

(** ** The scenarios of the protocol, run on the sample host *)

(** A paid request is served, and the payment is echoed. *)
Example scenario_happy_path :
  exists weatherData w',
    GET {| header_x_payment := Some Sample.header_paid |} Sample.host initial
      = (Returns {| status := 200; body := WeatherBody weatherData |}, w')
    /\ Weather.payment weatherData = valid_fresh (VStr Sample.tx_paid).
Proof.
  eexists _, _. split; [lazy; reflexivity|]. reflexivity.
Qed.

(** The same transaction submitted again is served from the cache, and
    the ledger is not asked a second time. *)
Example scenario_replay :
  exists weatherData w',
    GET {| header_x_payment := Some Sample.header_paid |}
        Sample.host Sample.paid_world
      = (Returns {| status := 200; body := WeatherBody weatherData |}, w')
    /\ Weather.payment weatherData = valid_cached
    /\ receiptQueries w' = receiptQueries Sample.paid_world.
Proof.
  eexists _, _. split; [lazy; reflexivity|]. split; reflexivity.
Qed.

(** A proof for another network is answered with a new challenge. *)
Example scenario_wrong_network :
  exists challenge w',
    GET {| header_x_payment := Some Sample.header_other_network |}
        Sample.host initial
      = (Returns {| status := 402; body := ChallengeBody challenge |}, w')
    /\ error challenge = Some "Invalid payment format or network".
Proof.
  eexists _, _. split; [lazy; reflexivity|]. reflexivity.
Qed.

(* ================================================================== *)
(** * Further properties of the route *)
(* ================================================================== *)

Import Process.

(** ** The verifier: remaining exits *)

(** X1. A proof that passes the protocol check but names no transaction
    (its payload is not an object with a [txHash], or the [txHash] is
    empty, [null], [false] or zero) is rejected with the reason
    ["No valid payment proof provided"]; the cache and the ledger are
    not touched. *)
Theorem no_payment_proof
    (h : Host) (w : World) (paymentHeader : string) (paymentData : value) :
  JSON_parse_base64 h paymentHeader = Returns paymentData ->
  protocol_match paymentData = true ->
  nullish (field paymentData "payload") = false ->
  truthy (field (field paymentData "payload") "txHash") = false ->
  verifyPayment paymentHeader h w =
    (Returns {| isValid := false;
                reason := Some "No valid payment proof provided";
                cached := None; txHash := None |},
     w).
Proof.
  intros Hdec Hm Hpay Ht.
  assert (nullish paymentData = false) as Hn.
  { destruct paymentData; try reflexivity; discriminate. }
  apply (run_no_hash h w paymentHeader paymentData
           (field (field paymentData "payload") "txHash")); auto.
  now apply get_property_field.
Qed.


(** ** The verifier: shape of the result *)

(** Every reason the verifier gives is a non-empty text. *)
Lemma verify_exit_shape
    (h : Host) (w w' : World) (paymentHeader : string)
    (r : VerificationResult) :
  verify_exit h w paymentHeader r w' ->
  (isValid r = false
   /\ (exists why, reason r = Some why /\ why <> "")
   /\ cached r = None /\ txHash r = None)
  \/ (r = valid_cached)
  \/ (exists hash, r = valid_fresh hash).
Proof.
  intros Hexit.
  inversion Hexit; subst;
    try (left; split; [reflexivity|];
         split; [eexists; split; [reflexivity|discriminate]|];
         split; reflexivity).
  - right. now left.
  - right. right. now exists hash.
Qed.

(** X3. The result of the verifier has one of three shapes, whatever the
    header: a rejection with a non-empty reason and neither [cached] nor
    [txHash]; an acceptance from the cache, with [cached] and nothing
    else; a fresh acceptance, with [txHash] and nothing else. A reason is
    present exactly on rejection. *)
Theorem verification_result_shape
    (h : Host) (w : World) (paymentHeader : string) :
  exists r w',
    verifyPayment paymentHeader h w = (Returns r, w')
    /\ ((isValid r = false
         /\ (exists why, reason r = Some why /\ why <> "")
         /\ cached r = None /\ txHash r = None)
        \/ (isValid r = true /\ reason r = None
            /\ cached r = Some true /\ txHash r = None)
        \/ (isValid r = true /\ reason r = None
            /\ cached r = None /\ exists hash, txHash r = Some hash)).
Proof.
  destruct (verifyPayment_exit h w paymentHeader) as (r & w' & Hrun & Hexit).
  exists r, w'. split; [exact Hrun|].
  destruct (verify_exit_shape _ _ _ _ _ Hexit) as [H|[->|(hash & ->)]].
  - now left.
  - right. left. now repeat split.
  - right. right. repeat split. now exists hash.
Qed.

(** ** The request handler, case by case *)

Lemma GET_handled (h : Host) (w : World) (req : NextRequest) :
  exists response w',
    GET req h w = (Returns response, w') /\ handled h w req response w'.
Proof.
  destruct (header_x_payment req) as [p|] eqn:Hreq.
  2:{ destruct (generatePaymentChallenge_run h w) as (c & Hgen & _).
      eexists _, _. split.
      - unfold GET. rewrite Hreq. unfold bind at 1. rewrite Hgen. reflexivity.
      - apply handled_no_payment; auto. }
  destruct (String.eqb_spec p "") as [->|Hne].
  { destruct (generatePaymentChallenge_run h w) as (c & Hgen & _).
    eexists _, _. split.
    - unfold GET. rewrite Hreq. cbn [String.eqb].
      unfold bind at 1. rewrite Hgen. reflexivity.
    - apply handled_no_payment; auto. }
  destruct (verifyPayment_exit h w p) as (r & w1 & Hrun & Hexit).
  assert ((p =? "") = false) as Hneb by now apply String.eqb_neq.
  destruct (isValid r) eqn:Hvalid.
  - eexists _, _. split.
    + unfold GET. rewrite Hreq, Hneb. unfold bind at 1.
      rewrite Hrun, Hvalid. cbn [negb]. reflexivity.
    + eapply handled_accepted; eauto.
  - destruct (generatePaymentChallenge_run h w1) as (c & Hgen & _).
    eexists _, _. split.
    + unfold GET. rewrite Hreq, Hneb. unfold bind at 1.
      rewrite Hrun, Hvalid. cbn [negb]. unfold bind at 1. rewrite Hgen.
      reflexivity.
    + eapply handled_rejected; eauto.
Qed.




Lemma no_payment_proof_witness :
  verifyPayment Sample2.header_no_hash Sample2.host Sample.paid_world =
    (Returns {| isValid := false;
                reason := Some "No valid payment proof provided";
                cached := None; txHash := None |},
     Sample.paid_world).
Proof.
  apply (no_payment_proof Sample2.host Sample.paid_world
           Sample2.header_no_hash
           (VObj [ ("x402Version", VNum 1);
                   ("scheme", VStr "exact");
                   ("network", VStr "sei-testnet");
                   ("payload", VObj [ ("amount", VStr "1000");
                                      ("from", VStr Sample.payer) ]) ]));
    reflexivity.
Defined.



(** ** The cache over the life of the process *)

Lemma Map_get_set_absent
    (V : Type) (m : Map V) (k k' : value) (v e : V) :
  Map_has m k' = false ->
  Map_get m k = Some e ->
  Map_get (Map_set m k' v) k = Some e.
Proof.
  unfold Map_has.
  induction m as [|[k0 v0] m IH]; cbn; [discriminate|].
  destruct (same_value_zero k0 k') eqn:E'; [discriminate|].
  intros Habs. cbn. destruct (same_value_zero k0 k); auto.
Qed.

Lemma Map_set_absent_length (V : Type) (m : Map V) (k : value) (v : V) :
  Map_has m k = false ->
  List.length (Map_set m k v) = S (List.length m).
Proof.
  unfold Map_has.
  induction m as [|[k0 v0] m IH]; cbn; [reflexivity|].
  destruct (same_value_zero k0 k); [discriminate|].
  intros Habs. cbn. now rewrite IH.
Qed.

Lemma Map_set_absent_keys (V : Type) (m : Map V) (k : value) (v : V) :
  Map_has m k = false ->
  Map_keys (Map_set m k v) = (Map_keys m ++ [k])%list.
Proof.
  unfold Map_has, Map_keys.
  induction m as [|[k0 v0] m IH]; cbn; [reflexivity|].
  destruct (same_value_zero k0 k); [discriminate|].
  intros Habs. cbn. now rewrite IH.
Qed.

(** What one request does to the cache and to the ledger log: nothing,
    or one query, or one query and one new entry. *)
Lemma serve_effect (h : Host) (w : World) (req : NextRequest) :
  (verifiedPayments (serve h req w) = verifiedPayments w
   /\ receiptQueries (serve h req w) = receiptQueries w)
  \/ (exists paymentHeader paymentData hash,
        header_x_payment req = Some paymentHeader
        /\ JSON_parse_base64 h paymentHeader = Returns paymentData
        /\ carries paymentData hash
        /\ Map_has (verifiedPayments w) hash = false
        /\ receiptQueries (serve h req w) = hash :: receiptQueries w
        /\ (verifiedPayments (serve h req w) = verifiedPayments w
            \/ verifiedPayments (serve h req w) =
                 Map_set (verifiedPayments w) hash
                   (entry_of paymentData (clock h (clockReads w))))).
Proof.
  unfold serve.
  destruct (GET_handled h w req) as (response & w' & Hget & Hh).
  rewrite Hget. cbn [snd].
  assert (forall p r w1,
            header_x_payment req = Some p ->
            verify_exit h w p r w1 ->
            (verifiedPayments w1 = verifiedPayments w
             /\ receiptQueries w1 = receiptQueries w)
            \/ (exists paymentHeader paymentData hash,
                  header_x_payment req = Some paymentHeader
                  /\ JSON_parse_base64 h paymentHeader = Returns paymentData
                  /\ carries paymentData hash
                  /\ Map_has (verifiedPayments w) hash = false
                  /\ receiptQueries w1 = hash :: receiptQueries w
                  /\ (verifiedPayments w1 = verifiedPayments w
                      \/ verifiedPayments w1 =
                           Map_set (verifiedPayments w) hash
                             (entry_of paymentData (clock h (clockReads w))))))
    as Hverify.
  { intros p r w1 Hreq Hexit.
    inversion Hexit; subst; try (left; split; reflexivity);
      right; exists p, paymentData, hash;
      repeat (split; [assumption|]);
      (split; [reflexivity|]);
      solve [left; reflexivity | right; reflexivity]. }
  inversion Hh as [c Hreq Hgen | p r w1 c Hreq Hne Hv Hexit Hvalid Hgen
                  | p r w1 Hreq Hne Hv Hexit Hvalid]; subst;
    cbn [draw tick verifiedPayments receiptQueries].
  - now left.
  - exact (Hverify p r w1 Hreq Hexit).
  - exact (Hverify p r w1 Hreq Hexit).
Qed.

Import ProcessInvariant.

(** X6. A request asks the ledger for at most one receipt, and only for
    the hash of a well-formed proof that is not in the cache; a request
    that adds to the cache has asked. Over a run of requests no more
    receipts are asked than requests were served. *)
Theorem ledger_asked_at_most_once_per_request
    (h : Host) (w : World) (req : NextRequest)
    (steps : list (Host * NextRequest)) :
  (receiptQueries (serve h req w) = receiptQueries w
   /\ verifiedPayments (serve h req w) = verifiedPayments w
   \/ exists paymentHeader paymentData hash,
        header_x_payment req = Some paymentHeader
        /\ JSON_parse_base64 h paymentHeader = Returns paymentData
        /\ carries paymentData hash
        /\ Map_has (verifiedPayments w) hash = false
        /\ receiptQueries (serve h req w) = hash :: receiptQueries w)
  /\ (List.length (receiptQueries (run_requests steps w))
      <= List.length (receiptQueries w) + List.length steps)%nat.
Proof.
  split.
  - destruct (serve_effect h w req)
      as [[Hc Hq]|(p & d & k & Hreq & Hdec & Hcar & Hhas & Hq & _)].
    + now left.
    + right. now exists p, d, k.
  - revert w. induction steps as [|[h' req'] steps IH]; intros w; cbn.
    + lia.
    + specialize (IH (serve h' req' w)).
      destruct (serve_effect h' w req')
        as [[_ Hq]|(p & d & k & _ & _ & _ & _ & Hq & _)];
        rewrite Hq in IH; cbn in IH; lia.
Qed.

Lemma serve_keeps_entries
    (h : Host) (w : World) (req : NextRequest) (k : value)
    (e : VerifiedPayment) :
  Map_get (verifiedPayments w) k = Some e ->
  Map_get (verifiedPayments (serve h req w)) k = Some e.
Proof.
  intros Hget.
  destruct (serve_effect h w req)
    as [[-> _]|(p & d & k' & _ & _ & _ & Hhas & _ & [->| ->])]; auto.
  now apply Map_get_set_absent.
Qed.



Lemma Map_has_get (V : Type) (m : Map V) (k : value) :
  Map_has m k = true <-> exists e, Map_get m k = Some e.
Proof.
  unfold Map_has. destruct (Map_get m k) as [e|].
  - split; [now exists e|reflexivity].
  - split; [discriminate|now intros (e & [=])].
Qed.

Lemma serve_keeps_keys
    (h : Host) (w : World) (req : NextRequest) (k : value) :
  Map_has (verifiedPayments w) k = true ->
  Map_has (verifiedPayments (serve h req w)) k = true.
Proof.
  intros Hin. apply Map_has_get in Hin as (e & He). apply Map_has_get.
  exists e. now apply serve_keeps_entries.
Qed.

Lemma run_requests_keep_keys
    (steps : list (Host * NextRequest)) (w : World) (k : value) :
  Map_has (verifiedPayments w) k = true ->
  Map_has (verifiedPayments (run_requests steps w)) k = true.
Proof.
  revert w. induction steps as [|[h req] steps IH]; intros w Hin; cbn.
  - exact Hin.
  - apply IH. now apply serve_keeps_keys.
Qed.

(** X8. Paid once, served ever after. When a request with a proof for a
    hash (a string, as transaction hashes are) has been answered with
    200, then after any further run of requests every request with a
    well-formed proof for that hash is answered with 200 from the cache,
    without a question to the ledger and whatever the ledger would say
    by then. No time limit applies. *)
Theorem paid_once_served_ever_after
    (h : Host) (w : World) (req : NextRequest)
    (paymentHeader : string) (paymentData : value) (hash : string)
    (response : NextResponse) (w1 : World)
    (steps : list (Host * NextRequest))
    (h2 : Host) (req2 : NextRequest)
    (paymentHeader2 : string) (paymentData2 : value) :
  header_x_payment req = Some paymentHeader ->
  JSON_parse_base64 h paymentHeader = Returns paymentData ->
  carries paymentData (VStr hash) ->
  GET req h w = (Returns response, w1) ->
  status response = 200%Z ->
  header_x_payment req2 = Some paymentHeader2 ->
  JSON_parse_base64 h2 paymentHeader2 = Returns paymentData2 ->
  paymentHeader2 <> "" ->
  carries paymentData2 (VStr hash) ->
  let w2 := run_requests steps w1 in
  exists weatherData w3,
    GET req2 h2 w2 =
      (Returns {| status := 200; body := WeatherBody weatherData |}, w3)
    /\ Weather.payment weatherData =
         {| isValid := true; reason := None;
            cached := Some true; txHash := None |}
    /\ receiptQueries w3 = receiptQueries w2
    /\ verifiedPayments w3 = verifiedPayments w2.
Proof.
  intros Hreq Hdec Hcar Hget Hstatus Hreq2 Hdec2 Hne2 Hcar2 w2.
  assert (Map_has (verifiedPayments w1) (VStr hash) = true) as Hin.
  { destruct (GET_handled h w req) as (response' & w1' & Hget' & Hh).
    rewrite Hget in Hget'. injection Hget' as <- <-.
    inversion Hh as [c Hreq' Hgen | p r w0 c Hreq' Hne Hv Hexit Hvalid Hgen
                    | p r w0 Hreq' Hne Hv Hexit Hvalid]; subst;
      cbn [status] in Hstatus; try discriminate.
    rewrite Hreq in Hreq'. injection Hreq' as <-.
    cbn [tick verifiedPayments].
    inversion Hexit as
      [ | | | d k Hd Hc Hhas | | | | | d k rc Hd Hc Hhas Hl Hs Hv' ]; subst;
      try discriminate;
      rewrite Hdec in Hd; injection Hd as <-;
      destruct Hcar as (_ & _ & Hk & _); destruct Hc as (_ & _ & Hk' & _);
      rewrite Hk in Hk'; injection Hk' as <-.
    - exact Hhas.
    - cbn [stored verifiedPayments]. now apply Map_has_set_same. }
  assert (Map_has (verifiedPayments w2) (VStr hash) = true) as Hin2.
  { now apply run_requests_keep_keys. }
  pose proof (run_cached h2 w2 paymentHeader2 _ _ Hdec2 Hcar2 Hin2) as Hrun.
  destruct (GET_accepted h2 w2 w2 req2 paymentHeader2 valid_cached
              Hreq2 Hne2 Hrun eq_refl) as (weatherData & Hget2 & Hpay).
  exists weatherData, (tick w2). now repeat split.
Qed.

Lemma paid_once_served_ever_after_witness :
  exists weatherData w3,
    GET {| header_x_payment := Some Sample.header_paid_again |}
        Sample2.host_ledger_down
        (run_requests
           [ (Sample2.host,
              {| header_x_payment := Some Sample2.header_pending |}) ]
           (serve Sample.host
              {| header_x_payment := Some Sample.header_paid |} initial))
      = (Returns {| status := 200; body := WeatherBody weatherData |}, w3)
    /\ Weather.payment weatherData =
         {| isValid := true; reason := None;
            cached := Some true; txHash := None |}
    /\ receiptQueries w3 =
         [VStr Sample2.tx_pending; VStr Sample.tx_paid]
    /\ verifiedPayments w3 = verifiedPayments Sample.paid_world.
Proof.
  refine (paid_once_served_ever_after Sample.host initial
            {| header_x_payment := Some Sample.header_paid |}
            Sample.header_paid
            (Sample.proof "sei-testnet" Sample.tx_paid "1000" Sample.payer)
            Sample.tx_paid
            {| status := 200;
               body := WeatherBody
                         (weather_of 1700000000001
                            (valid_fresh (VStr Sample.tx_paid))) |}
            (serve Sample.host
               {| header_x_payment := Some Sample.header_paid |} initial)
            [ (Sample2.host,
               {| header_x_payment := Some Sample2.header_pending |}) ]
            Sample2.host_ledger_down
            {| header_x_payment := Some Sample.header_paid_again |}
            Sample.header_paid_again
            (Sample.proof "sei-testnet" Sample.tx_paid "1" Sample.other_payer)
            _ _ _ _ _ _ _ _ _).
  - reflexivity.
  - reflexivity.
  - repeat split; reflexivity.
  - reflexivity.
  - reflexivity.
  - reflexivity.
  - reflexivity.
  - discriminate.
  - repeat split; reflexivity.
Defined.

(** X9. In every state the process reaches from its start, each key of
    the cache is a usable (truthy) hash that has been asked of the
    ledger, and the cache has no more entries than receipts were
    asked. *)
Theorem cache_is_sound (steps : list (Host * NextRequest)) :
  cache_sound (run_requests steps initial).
Proof.
  assert (forall w, cache_sound w -> cache_sound (run_requests steps w))
    as Hkeep.
  { induction steps as [|[h req] steps IH]; intros w Hw; cbn; [exact Hw|].
    apply IH. clear IH. destruct Hw as (Ht & Hi & Hl).
    unfold cache_sound.
    destruct (serve_effect h w req)
      as [[-> ->]|(p & d & k & _ & _ & Hcar & Hhas & -> & [->| ->])].
    - now repeat split.
    - repeat split; auto.
      + now apply incl_tl.
      + cbn. lia.
    - rewrite (Map_set_absent_keys _ _ _ _ Hhas),
              (Map_set_absent_length _ _ _ _ Hhas).
      repeat split.
      + apply Forall_app. split; [exact Ht|].
        constructor; [|constructor]. now destruct Hcar as (_ & _ & _ & Hk).
      + apply incl_app; [now apply incl_tl|].
        intros x [<-|[]]. now left.
      + cbn. lia. }
  apply Hkeep. repeat split; cbn; auto. intros x [].
Qed.

(* ================================================================== *)
(** * Properties of the agent's actions *)
(* ================================================================== *)

(** The proof header the agent builds for the sample payment is the
    header of the sample request, character for character. *)
Example proof_header_sample :
  Agent.proof_header Sample.tx_paid "1000" Sample.payer = Sample.header_paid
  /\ Agent.proof_header Sample2.tx_pending "1000" Sample.payer
     = Sample2.header_pending.
Proof. split; vm_compute; reflexivity. Qed.

Lemma Map_get_set_new
    (V : Type) (m : Map V) (k : value) (v : V) :
  primitive k = true ->
  Map_has m k = false ->
  Map_get (Map_set m k v) k = Some v.
Proof.
  intros Hp. unfold Map_has.
  induction m as [|[k0 v0] m IH]; cbn.
  - now rewrite same_value_zero_refl.
  - destruct (same_value_zero k0 k) eqn:E; [discriminate|].
    intros Habs. cbn. rewrite E. auto.
Qed.

(** The challenge a request without payment header is answered with. *)
Lemma GET_no_header (h : Host) (w : World) :
  exists option,
    GET {| header_x_payment := None |} h w =
      (Returns {| status := 402;
                  body := ChallengeBody
                            {| x402Version := 1;
                               accepts := [option];
                               error := None |} |},
       draw (tick w))
    /\ payTo option = Config.recipient X402_CONFIG
    /\ reference (extra option) =
         make_reference (clock h (clockReads w)) (random36 h (randomDraws w)).
Proof.
  eexists. split; [|split].
  - unfold GET, bind, generatePaymentChallenge, bind, Date_now,
      Math_random_toString36. cbn. reflexivity.
  - reflexivity.
  - reflexivity.
Qed.

Lemma proof_header_nonempty (txHash amount from : string) :
  Agent.proof_header txHash amount from <> "".
Proof.
  unfold Agent.proof_header, Agent.proof_text.
  cbn [append Node.JSON_key Node.JSON_stringify_string].
  destruct (Node.JSON_escape_all "x402Version" ++ _)%string as [|c [|c' s]];
    cbn; discriminate.
Qed.

Lemma proof_value_carries (txHash amount from : string) :
  txHash <> "" ->
  carries (Agent.proof_value txHash amount from) (VStr txHash).
Proof.
  intros Hne. repeat split.
  cbn. apply String.eqb_neq in Hne. now rewrite Hne.
Qed.

(** ** The payment handshake between [getWeather] and the route *)

(** The first request of [getWeather], when it reaches the route. *)
Lemma first_fetch (ah : Agent.Host) (aw : Agent.World) :
  Agent.unreachable ah (List.length (Agent.calls aw)) = None ->
  exists option,
    Agent.fetch_weather None ah aw =
      (Returns {| Agent.status := 402;
                  Agent.json := Returns
                    (ChallengeBody {| x402Version := 1;
                                      accepts := [option];
                                      error := None |}) |},
       Agent.with_server (draw (tick (Agent.weatherServer aw)))
         (Agent.called (Agent.call_fetch_weather None) aw))
    /\ payTo option = Config.recipient X402_CONFIG.
Proof.
  intros Hreach.
  destruct (GET_no_header (Agent.serverHost ah) (Agent.weatherServer aw))
    as (o & Hget & Hpay & _).
  exists o. split; [|exact Hpay].
  unfold Agent.fetch_weather. now rewrite Hreach, Hget.
Qed.

Lemma parse_units_price : Agent.parse_units "0.001" = Agent.ret 1000%Z.
Proof. reflexivity. Qed.

(** [makeX402Payment] for the price of the weather, step by step. *)
Lemma makeX402Payment_sent
    (h : Agent.Host) (w : Agent.World) (recipient reference data tx : string) :
  Agent.encodeFunctionData h recipient 1000 = Returns data ->
  Agent.sendTransaction h (List.length (Agent.calls w))
    {| Agent.to := Config.assetAddress X402_CONFIG;
       Agent.data_hex := data |} = Returns tx ->
  Agent.makeX402Payment "0.001" recipient reference h w =
    (Returns tx,
     Agent.called
       (Agent.call_sendTransaction
          {| Agent.to := Config.assetAddress X402_CONFIG;
             Agent.data_hex := data |}) w).
Proof.
  intros Henc Hsend.
  unfold Agent.makeX402Payment. rewrite parse_units_price.
  unfold Agent.try_catch, Agent.bind, Agent.ret, Agent.wallet_sendTransaction.
  now rewrite Henc, Hsend.
Qed.

Lemma makeX402Payment_refused
    (h : Agent.Host) (w : Agent.World) (recipient reference data : string)
    (e : Error) :
  Agent.encodeFunctionData h recipient 1000 = Returns data ->
  Agent.sendTransaction h (List.length (Agent.calls w))
    {| Agent.to := Config.assetAddress X402_CONFIG;
       Agent.data_hex := data |} = Throws e ->
  Agent.makeX402Payment "0.001" recipient reference h w =
    (Throws {| message := "Payment failed: " ++ message e |},
     Agent.called
       (Agent.call_sendTransaction
          {| Agent.to := Config.assetAddress X402_CONFIG;
             Agent.data_hex := data |}) w).
Proof.
  intros Henc Hsend.
  unfold Agent.makeX402Payment. rewrite parse_units_price.
  unfold Agent.try_catch, Agent.bind, Agent.ret, Agent.wallet_sendTransaction.
  now rewrite Henc, Hsend.
Qed.

(** A request of [getWeather] that reaches the route gets the route's
    answer. *)
Lemma fetch_arrives
    (h : Agent.Host) (w : Agent.World) (payment : option string)
    (response : NextResponse) (server : World) :
  Agent.unreachable h (List.length (Agent.calls w)) = None ->
  GET {| header_x_payment := payment |} (Agent.serverHost h)
      (Agent.weatherServer w) = (Returns response, server) ->
  Agent.fetch_weather payment h w =
    (Returns {| Agent.status := status response;
                Agent.json := Returns (body response) |},
     Agent.with_server server
       (Agent.called (Agent.call_fetch_weather payment) w)).
Proof.
  intros Hreach Hget. unfold Agent.fetch_weather.
  now rewrite Hreach, Hget.
Qed.

(** [getWeather] up to the payment: the challenge has been fetched. *)
Ltac fetch_challenge ah aw Hreach o Hpay :=
  let Hfetch := fresh "Hfetch" in
  destruct (first_fetch ah aw Hreach) as (o & Hfetch & Hpay);
  unfold Agent.getWeather, Agent.try_catch;
  unfold Agent.bind at 1; rewrite Hfetch;
  cbn [Agent.status Z.eqb Pos.eqb negb Agent.json Agent.lift];
  unfold Agent.bind at 1; cbn [Agent.lift];
  unfold Agent.bind at 1; cbn [Agent.first_option accepts Agent.lift];
  unfold Agent.bind at 1; cbn [Agent.first_option accepts Agent.lift];
  rewrite Hpay.

(** X10. The handshake succeeds when the payment is confirmed in time.
    Suppose both requests of [getWeather] reach the route, the wallet
    sends the transfer and returns its hash, the route decodes the
    header the agent built to the proof the agent meant, and the ledger
    already has, for that hash, a receipt with status [success] and the
    asset contract as destination. Then the action answers with the
    weather text; the hash is the new head of [transactions] and the
    [lastTransaction]; one line is added to the history; the route has
    cached the hash with the amount ["1000"] and the wallet address as
    payer; and the calls made were, in order, a request without header,
    one transaction to the asset contract, and a request with the
    proof. *)
Theorem handshake_succeeds
    (ah : Agent.Host) (aw : Agent.World)
    (data tx : string) (receipt : Viem.TransactionReceipt) (a : string) :
  let n := List.length (Agent.calls aw) in
  let sh := Agent.serverHost ah in
  let sw := Agent.weatherServer aw in
  let from := Agent.walletAdress ah in
  let request :=
    {| Agent.to := Config.assetAddress X402_CONFIG;
       Agent.data_hex := data |} in
  Agent.unreachable ah n = None ->
  Agent.encodeFunctionData ah (Config.recipient X402_CONFIG) 1000
    = Returns data ->
  Agent.sendTransaction ah (S n) request = Returns tx ->
  tx <> "" ->
  Agent.unreachable ah (S (S n)) = None ->
  JSON_parse_base64 sh (Agent.proof_header tx "1000" from)
    = Returns (Agent.proof_value tx "1000" from) ->
  Map_has (verifiedPayments sw) (VStr tx) = false ->
  ledger sh (List.length (receiptQueries sw)) (VStr tx)
    = Returns (Some receipt) ->
  Viem.status receipt = Viem.success ->
  Viem.to receipt = Some a ->
  same_address a (Config.assetAddress X402_CONFIG) ->
  exists response aw',
    Agent.getWeather ah aw = (Returns response, aw')
    /\ String.prefix "🌤️ **Weather Data Retrieved**"
         (Agent.content response) = true
    /\ Agent.transactions (Agent.memory aw')
         = tx :: Agent.transactions (Agent.memory aw)
    /\ Agent.lastTransaction (Agent.memory aw') = Some tx
    /\ Agent.conversationHistory (Agent.memory aw')
         = (Agent.conversationHistory (Agent.memory aw)
            ++ [("Got weather data. Payment TX: " ++ tx)%string])%list
    /\ Map_get (verifiedPayments (Agent.weatherServer aw')) (VStr tx)
         = Some {| timestamp := clock sh (S (clockReads sw));
                   amount := VStr "1000";
                   from := VStr from |}
    /\ Agent.calls aw' =
         Agent.call_fetch_weather
           (Some (Agent.proof_header tx "1000" from))
         :: Agent.call_sendTransaction request
         :: Agent.call_fetch_weather None
         :: Agent.calls aw.
Proof.
  intros n sh sw from request Hreach Henc Hsend Hne Hreach2 Hdec Hhas Hl Hs
    Hto Hsame.
  subst n sh sw from request.
  fetch_challenge ah aw Hreach o Hpay.
  unfold Agent.bind at 1.
  rewrite (makeX402Payment_sent ah
             (Agent.with_server (draw (tick (Agent.weatherServer aw)))
                (Agent.called (Agent.call_fetch_weather None) aw))
             _ (reference (extra o)) data tx Henc Hsend).
  rewrite parse_units_price. unfold Agent.bind at 1. unfold Agent.ret at 1.
  unfold Agent.bind at 1.
  change (integer_toString 1000) with "1000".
  pose (sw1 := draw (tick (Agent.weatherServer aw))).
  pose (header := Agent.proof_header tx "1000" (Agent.walletAdress ah)).
  assert (isValidTransfer receipt = true) as Hv
    by (apply isValidTransfer_true; now exists a).
  pose proof (run_verified (Agent.serverHost ah) sw1 header _ _ receipt
                Hdec (proof_value_carries tx "1000" (Agent.walletAdress ah) Hne)
                Hhas Hl Hs Hv) as Hrun.
  destruct (GET_accepted (Agent.serverHost ah) sw1 _
              {| header_x_payment := Some header |} header _
              eq_refl (proof_header_nonempty _ _ _) Hrun eq_refl)
    as (weatherData & Hget & _).
  unfold Agent.bind at 1.
  rewrite (fetch_arrives ah
             (Agent.called _
                (Agent.with_server sw1
                   (Agent.called (Agent.call_fetch_weather None) aw)))
             (Some header) _ _ Hreach2 Hget).
  cbn [status body Agent.ok Agent.status Agent.json negb andb Z.leb Z.compare
       Pos.compare Pos.compare_cont].
  eexists _, _. split; [reflexivity|].
  cbn [Agent.actionResponse Agent.content Agent.memory Agent.with_memory
       Agent.with_server Agent.called Agent.calls Agent.weatherServer
       Agent.transactions Agent.lastTransaction Agent.conversationHistory
       Agent.push_history Agent.record_transaction].
  split; [reflexivity|]. split; [reflexivity|]. split; [reflexivity|].
  split; [reflexivity|]. split; [|reflexivity].
  cbn [tick stored verifiedPayments].
  apply Map_get_set_new; [reflexivity|exact Hhas].
Qed.

Lemma handshake_succeeds_witness :
  exists response aw',
    Agent.getWeather SampleAgent.host SampleAgent.start
      = (Returns response, aw')
    /\ String.prefix "🌤️ **Weather Data Retrieved**"
         (Agent.content response) = true
    /\ Agent.transactions (Agent.memory aw') = [Sample.tx_paid]
    /\ Agent.lastTransaction (Agent.memory aw') = Some Sample.tx_paid
    /\ Agent.conversationHistory (Agent.memory aw')
         = [ "how about the weather";
             "Got weather data. Payment TX: " ++ Sample.tx_paid ]
    /\ Map_get (verifiedPayments (Agent.weatherServer aw'))
         (VStr Sample.tx_paid)
         = Some {| timestamp := 1700000000001;
                   amount := VStr "1000";
                   from := VStr Sample.payer |}
    /\ Agent.calls aw' =
         [ Agent.call_fetch_weather (Some Sample.header_paid);
           Agent.call_sendTransaction
             {| Agent.to := "0x4fCF1784B31630811181f670Aea7A7bEF803eaED";
                Agent.data_hex := SampleAgent.transfer_data |};
           Agent.call_fetch_weather None ].
Proof.
  refine (handshake_succeeds SampleAgent.host SampleAgent.start
            SampleAgent.transfer_data Sample.tx_paid
            {| Viem.status := Viem.success;
               Viem.to := Some "0x4fcf1784b31630811181f670aea7a7bef803eaed" |}
            "0x4fcf1784b31630811181f670aea7a7bef803eaed"
            _ _ _ _ _ _ _ _ _ _ _);
    try reflexivity.
  discriminate.
Defined.




(** X12. When the wallet refuses the transfer, [getWeather] stops there:
    no second request is made, the route's cache and ledger log are as
    they were, [transactions] and [lastTransaction] are untouched, and
    the answer carries the wallet's message behind
    ["Payment failed: "]. *)
Theorem refused_payment_stops_the_handshake
    (ah : Agent.Host) (aw : Agent.World) (data : string) (e : Error) :
  let n := List.length (Agent.calls aw) in
  let sw := Agent.weatherServer aw in
  let request :=
    {| Agent.to := Config.assetAddress X402_CONFIG;
       Agent.data_hex := data |} in
  Agent.unreachable ah n = None ->
  Agent.encodeFunctionData ah (Config.recipient X402_CONFIG) 1000
    = Returns data ->
  Agent.sendTransaction ah (S n) request = Throws e ->
  exists response aw',
    Agent.getWeather ah aw = (Returns response, aw')
    /\ Agent.content response =
         "❌ **Weather Request Failed**

Error: Failed to get weather data. Payment failed: " ++ message e ++ "

Please try again or check your wallet balance for USDC tokens needed for the payment."
    /\ Agent.calls aw' =
         Agent.call_sendTransaction request
         :: Agent.call_fetch_weather None
         :: Agent.calls aw
    /\ Agent.transactions (Agent.memory aw')
         = Agent.transactions (Agent.memory aw)
    /\ Agent.lastTransaction (Agent.memory aw')
         = Agent.lastTransaction (Agent.memory aw)
    /\ verifiedPayments (Agent.weatherServer aw') = verifiedPayments sw
    /\ receiptQueries (Agent.weatherServer aw') = receiptQueries sw.
Proof.
  intros n sw request Hreach Henc Hsend.
  subst n sw request.
  fetch_challenge ah aw Hreach o Hpay.
  unfold Agent.bind at 1.
  rewrite (makeX402Payment_refused ah
             (Agent.with_server (draw (tick (Agent.weatherServer aw)))
                (Agent.called (Agent.call_fetch_weather None) aw))
             _ (reference (extra o)) data e Henc Hsend).
  eexists _, _. split; [reflexivity|].
  repeat split.
Qed.

Lemma refused_payment_stops_the_handshake_witness :
  exists response aw',
    Agent.getWeather SampleAgent.host_broke SampleAgent.start
      = (Returns response, aw')
    /\ Agent.content response =
         "❌ **Weather Request Failed**

Error: Failed to get weather data. Payment failed: " ++ "insufficient funds for gas * price + value" ++ "

Please try again or check your wallet balance for USDC tokens needed for the payment."
    /\ Agent.calls aw' =
         [ Agent.call_sendTransaction
             {| Agent.to := "0x4fCF1784B31630811181f670Aea7A7bEF803eaED";
                Agent.data_hex := SampleAgent.transfer_data |};
           Agent.call_fetch_weather None ]
    /\ Agent.transactions (Agent.memory aw') = []
    /\ Agent.lastTransaction (Agent.memory aw') = None
    /\ verifiedPayments (Agent.weatherServer aw') = []
    /\ receiptQueries (Agent.weatherServer aw') = [].
Proof.
  refine (refused_payment_stops_the_handshake SampleAgent.host_broke
            SampleAgent.start SampleAgent.transfer_data
            SampleAgent.insufficient_funds _ _ _);
    reflexivity.
Defined.

(** ** The memory across actions *)

Import AgentInvariant.

Lemma grows_refl (m : Agent.SeiMemory) : grows m m.
Proof.
  repeat split; auto; [now exists []|exists []; now rewrite app_nil_r].
Qed.

Lemma grows_trans (m1 m2 m3 : Agent.SeiMemory) :
  grows m1 m2 -> grows m2 m3 -> grows m1 m3.
Proof.
  intros (Hw & (t & Ht) & (l & Hl) & Hc) (Hw' & (t' & Ht') & (l' & Hl') & Hc').
  repeat split.
  - congruence.
  - exists (t' ++ t)%list. now rewrite Ht', Ht, app_assoc.
  - exists (l ++ l')%list. now rewrite Hl', Hl, app_assoc.
  - auto.
Qed.

Lemma grows_push_history (line : string) (m : Agent.SeiMemory) :
  grows m (Agent.push_history line m).
Proof.
  repeat split; auto; [now exists []|now exists [line]].
Qed.

Lemma grows_set_balance (b : float) (m : Agent.SeiMemory) :
  grows m (Agent.set_balance b m).
Proof.
  repeat split; auto; [now exists []|exists []; cbn; now rewrite app_nil_r].
Qed.

Lemma grows_record_transaction (tx : string) (m : Agent.SeiMemory) :
  grows m (Agent.record_transaction tx m).
Proof.
  repeat split; auto; [now exists [tx]|exists []; cbn; now rewrite app_nil_r].
Qed.

Lemma keeps_ret (A : Type) (a : A) : keeps (Agent.ret a).
Proof. intros h w. apply grows_refl. Qed.

Lemma keeps_throw (A : Type) (e : Error) : keeps (@Agent.throw A e).
Proof. intros h w. apply grows_refl. Qed.

Lemma keeps_lift (A : Type) (o : outcome A) : keeps (Agent.lift o).
Proof. intros h w. apply grows_refl. Qed.

Lemma keeps_read (A : Type) (f : Agent.Host -> Agent.World -> outcome A) :
  keeps (fun h w => (f h w, w)).
Proof. intros h w. apply grows_refl. Qed.

Lemma keeps_call (A : Type)
    (f : Agent.Host -> Agent.World -> outcome A) (c : Agent.Call) :
  keeps (fun h w => (f h w, Agent.called c w)).
Proof. intros h w. apply grows_refl. Qed.

Lemma keeps_bind (A B : Type) (m : Agent.M A) (k : A -> Agent.M B) :
  keeps m -> (forall a, keeps (k a)) -> keeps (Agent.bind m k).
Proof.
  intros Hm Hk h w. unfold Agent.bind.
  specialize (Hm h w). destruct (m h w) as [[a|e] w']; cbn [snd] in *.
  - eapply grows_trans; [exact Hm|apply Hk].
  - exact Hm.
Qed.

Lemma keeps_try_catch (A : Type)
    (body : Agent.M A) (handler : Error -> Agent.M A) :
  keeps body -> (forall e, keeps (handler e)) ->
  keeps (Agent.try_catch body handler).
Proof.
  intros Hb Hh h w. unfold Agent.try_catch.
  specialize (Hb h w). destruct (body h w) as [[a|e] w']; cbn [snd] in *.
  - exact Hb.
  - eapply grows_trans; [exact Hb|apply Hh].
Qed.

Lemma keeps_update (f : Agent.SeiMemory -> Agent.SeiMemory) :
  (forall m, grows m (f m)) -> keeps (Agent.update_memory f).
Proof. intros Hf h w. apply Hf. Qed.

Lemma keeps_fetch_weather (payment : option string) :
  keeps (Agent.fetch_weather payment).
Proof.
  intros h w. unfold Agent.fetch_weather.
  destruct (Agent.unreachable h _); [apply grows_refl|].
  destruct (GET _ _ _) as [[r|e] s]; apply grows_refl.
Qed.

Lemma keeps_parse_units (amount : string) : keeps (Agent.parse_units amount).
Proof.
  unfold Agent.parse_units.
  destruct (Viem.parseUnits _ _); [apply keeps_ret|apply keeps_throw].
Qed.

Ltac keep :=
  repeat first
    [ apply keeps_try_catch
    | apply keeps_bind
    | apply keeps_ret
    | apply keeps_throw
    | apply keeps_lift
    | apply keeps_fetch_weather
    | apply keeps_parse_units
    | apply keeps_update;
      first [ apply grows_push_history | apply grows_set_balance
            | apply grows_record_transaction ]
    | apply keeps_call
    | apply keeps_read
    | match goal with
      | |- keeps (if ?b then _ else _) => destruct b
      | |- keeps _ => fail 1
      | |- _ => intro
      end ].

Lemma keeps_makeX402Payment (amount recipient reference : string) :
  keeps (Agent.makeX402Payment amount recipient reference).
Proof.
  unfold Agent.makeX402Payment, Agent.wallet_sendTransaction. keep.
Qed.

Lemma keeps_run_action (a : Agent.Action) : keeps (Agent.run_action a).
Proof.
  destruct a; cbn [Agent.run_action].
  - unfold Agent.getBalance, Agent.get_memory, Agent.wallet_getERC20Balance.
    keep.
  - unfold Agent.transferToken, Agent.wallet_ERC20Transfer. keep.
  - unfold Agent.getSeiPrice, Agent.fetch_sei_price. keep.
  - unfold Agent.getWeather. keep.
Qed.

Lemma run_actions_grow (steps : list (Agent.Host * Agent.Action))
    (w : Agent.World) :
  grows (Agent.memory w) (Agent.memory (Agent.run_actions steps w)).
Proof.
  revert w. induction steps as [|[h a] steps IH]; intros w; cbn.
  - apply grows_refl.
  - eapply grows_trans; [apply keeps_run_action|apply IH].
Qed.

(** X13. Whatever actions run, in whatever order and under whatever
    behaviour of the wallet, the network and the ledger, they treat the
    memory in one way only: the wallet address stays, transactions are
    added at the front and never removed, history lines are added at the
    end and never removed, and [lastTransaction] remains the head of
    [transactions]. In particular this holds of every memory that
    started from [create]. *)
Theorem memory_only_grows
    (steps : list (Agent.Host * Agent.Action)) (w : Agent.World) :
  let m := Agent.memory w in
  let m' := Agent.memory (Agent.run_actions steps w) in
  Agent.wallet m' = Agent.wallet m
  /\ (exists newer,
        Agent.transactions m' = (newer ++ Agent.transactions m)%list)
  /\ (exists later,
        Agent.conversationHistory m'
          = (Agent.conversationHistory m ++ later)%list)
  /\ (Agent.lastTransaction m = List.hd_error (Agent.transactions m) ->
      Agent.lastTransaction m' = List.hd_error (Agent.transactions m'))
  /\ (forall address userMessage,
        m = Agent.create address userMessage ->
        Agent.lastTransaction m' = List.hd_error (Agent.transactions m')).
Proof.
  cbn zeta. destruct (run_actions_grow steps w) as (Hw & Ht & Hl & Hc).
  repeat split; auto.
  intros address userMessage Hm. apply Hc. rewrite Hm. reflexivity.
Qed.

Lemma try_catch_returns (A : Type)
    (body : Agent.M A) (handler : Error -> Agent.M A) :
  (forall e h w, exists r w', handler e h w = (Returns r, w')) ->
  forall h w, exists r w', Agent.try_catch body handler h w = (Returns r, w').
Proof.
  intros Hh h w. unfold Agent.try_catch.
  destruct (body h w) as [[a|e] w']; [now exists a, w'|apply Hh].
Qed.

(** X14. No action throws. Whatever fails on the way (the wallet, a
    request, the price service, a body that cannot be read), the handler
    catches it and returns a response. *)
Theorem actions_never_throw
    (a : Agent.Action) (h : Agent.Host) (w : Agent.World) :
  exists response w', Agent.run_action a h w = (Returns response, w').
Proof.
  destruct a; cbn [Agent.run_action];
    apply try_catch_returns; intros e h' w'; eexists _, _;
    cbv [Agent.bind Agent.update_memory Agent.ret]; reflexivity.
Qed.

(** ** The other actions, case by case *)

(** X15. [transferToken] records a transaction only when the wallet
    returned one. With an empty recipient nothing is called and nothing
    changes. Otherwise the wallet is asked once, with the amount as text
    and the recipient; if it returns a hash, the hash becomes the head of
    [transactions] and the [lastTransaction]; if it throws, both stay as
    they were and the answer is the wallet's message behind
    ["Error: Failed to transfer tokens. "]. *)
Theorem transfer_recorded_only_on_success
    (h : Agent.Host) (w : Agent.World) (to : string) (amount : float) :
  let m := Agent.memory w in
  let amount_text := Agent.Number_toString h amount in
  exists response w',
    Agent.transferToken to amount h w = (Returns response, w')
    /\ ((to = "" /\ w' = w
         /\ Agent.content response =
              "Error: No recipient address provided. Please provide a valid Sei wallet address.")
        \/ (to <> ""
            /\ Agent.calls w' =
                 Agent.call_ERC20Transfer amount_text to :: Agent.calls w
            /\ ((exists tx,
                   Agent.ERC20Transfer h (List.length (Agent.calls w))
                     amount_text to = Returns tx
                   /\ Agent.transactions (Agent.memory w')
                        = tx :: Agent.transactions m
                   /\ Agent.lastTransaction (Agent.memory w') = Some tx
                   /\ Agent.conversationHistory (Agent.memory w')
                        = (Agent.conversationHistory m
                           ++ [ ("Transferred " ++ amount_text ++ " SEI to "
                                 ++ to ++ ". TX: " ++ tx)%string ])%list)
                \/ (exists e,
                      Agent.ERC20Transfer h (List.length (Agent.calls w))
                        amount_text to = Throws e
                      /\ Agent.transactions (Agent.memory w')
                           = Agent.transactions m
                      /\ Agent.lastTransaction (Agent.memory w')
                           = Agent.lastTransaction m
                      /\ Agent.content response =
                           "Error: Failed to transfer tokens. " ++ message e
                      /\ Agent.conversationHistory (Agent.memory w')
                           = (Agent.conversationHistory m
                              ++ [ ("Transfer failed: "
                                    ++ "Error: Failed to transfer tokens. "
                                    ++ message e)%string ])%list)))).
Proof.
  cbn zeta.
  unfold Agent.transferToken, Agent.try_catch.
  destruct (String.eqb_spec to "") as [->|Hne].
  { eexists _, _. split; [reflexivity|]. left. now repeat split. }
  unfold Agent.bind at 1. unfold Agent.bind at 1.
  unfold Agent.wallet_ERC20Transfer at 1.
  destruct (Agent.ERC20Transfer h (List.length (Agent.calls w))
              (Agent.Number_toString h amount) to) as [tx|e] eqn:Hcall.
  - eexists _, _. split; [reflexivity|]. right.
    split; [exact Hne|]. split; [reflexivity|]. left.
    exists tx. now repeat split.
  - eexists _, _. split; [reflexivity|]. right.
    split; [exact Hne|]. split; [reflexivity|]. right.
    exists e. now repeat split.
Qed.

(** X16. [getBalance] reports the balance of the agent's own wallet,
    whatever address it is asked about. Without an address and without a
    wallet in the memory nothing is called and nothing changes.
    Otherwise the wallet is asked once for its balance, with no address;
    the answer is stored as the memory's balance and reported under the
    address asked about. A failing wallet leaves the balance as it
    was. *)
Theorem balance_is_the_wallets_own
    (h : Agent.Host) (w : Agent.World) (address : option string) :
  let m := Agent.memory w in
  let targetAddress := Agent.or_wallet address m in
  exists response w',
    Agent.getBalance address h w = (Returns response, w')
    /\ ((targetAddress = "" /\ w' = w)
        \/ (targetAddress <> ""
            /\ Agent.calls w' = Agent.call_getERC20Balance :: Agent.calls w
            /\ Agent.transactions (Agent.memory w') = Agent.transactions m
            /\ ((exists balance,
                   Agent.getERC20Balance h (List.length (Agent.calls w))
                     = Returns balance
                   /\ Agent.balance (Agent.memory w')
                        = Agent.parseFloat h balance
                   /\ Agent.conversationHistory (Agent.memory w')
                        = (Agent.conversationHistory m
                           ++ [ ("Checked balance for " ++ targetAddress
                                 ++ ": " ++ balance ++ " SEI")%string ])%list)
                \/ (exists e,
                      Agent.getERC20Balance h (List.length (Agent.calls w))
                        = Throws e
                      /\ Agent.balance (Agent.memory w') = Agent.balance m
                      /\ Agent.content response =
                           "Error: Failed to get balance. " ++ message e)))).
Proof.
  cbn zeta.
  unfold Agent.getBalance, Agent.try_catch.
  unfold Agent.bind at 1. unfold Agent.get_memory at 1.
  destruct (String.eqb_spec (Agent.or_wallet address (Agent.memory w)) "")
    as [E|Hne].
  { eexists _, _. split; [reflexivity|]. left. now split. }
  unfold Agent.bind at 1. unfold Agent.wallet_getERC20Balance at 1.
  destruct (Agent.getERC20Balance h (List.length (Agent.calls w)))
    as [b|e] eqn:Hcall.
  - eexists _, _. split; [reflexivity|]. right.
    split; [exact Hne|]. split; [reflexivity|]. split; [reflexivity|].
    left. exists b. now repeat split.
  - eexists _, _. split; [reflexivity|]. right.
    split; [exact Hne|]. split; [reflexivity|]. split; [reflexivity|].
    right. exists e. now repeat split.
Qed.

Lemma nullish_get_property (v : value) (name : string) :
  nullish v = true -> exists e, get_property v name = Throws e.
Proof.
  destruct v; try discriminate; intros _; eexists; reflexivity.
Qed.

(** X17. [getSeiPrice] and a price service that answers without the
    expected data. When the answer has no ["sei-network"] entry, reading
    the price throws and the action reports
    ["Error: Failed to fetch SEI price. "] with the reason. When the
    entry is there, the action reports a price in any case: a missing
    ["usd"] is not noticed, and the text shows whatever [undefined]
    renders to. Either way the service is asked once and the
    transactions are untouched. *)
Theorem price_read_from_the_answer
    (h : Agent.Host) (w : Agent.World) (data : value) :
  Agent.fetch_price h (List.length (Agent.calls w)) = Returns data ->
  nullish data = false ->
  let m := Agent.memory w in
  let entry := field data "sei-network" in
  exists response w',
    Agent.getSeiPrice h w = (Returns response, w')
    /\ Agent.calls w' = Agent.call_fetch_price :: Agent.calls w
    /\ Agent.transactions (Agent.memory w') = Agent.transactions m
    /\ (nullish entry = true ->
        exists why,
          Agent.content response
            = "Error: Failed to fetch SEI price. " ++ why
          /\ Agent.conversationHistory (Agent.memory w')
               = (Agent.conversationHistory m
                  ++ [ ("Failed to get SEI price: "
                        ++ "Error: Failed to fetch SEI price. "
                        ++ why)%string ])%list)
    /\ (nullish entry = false ->
        Agent.conversationHistory (Agent.memory w')
          = (Agent.conversationHistory m
             ++ [ ("Checked SEI price: $"
                   ++ Agent.ToString h (field entry "usd")
                   ++ " USD")%string ])%list).
Proof.
  intros Hfetch Hdata. cbn zeta.
  unfold Agent.getSeiPrice, Agent.try_catch.
  unfold Agent.bind at 1. unfold Agent.fetch_sei_price at 1. rewrite Hfetch.
  unfold Agent.bind at 1. unfold Agent.lift at 1.
  rewrite (get_property_field _ "sei-network" Hdata).
  destruct (nullish (field data "sei-network")) eqn:Hentry.
  - destruct (nullish_get_property _ "usd" Hentry) as (e & He).
    unfold Agent.bind at 1. unfold Agent.lift at 1. rewrite He.
    eexists _, _. split; [reflexivity|]. split; [reflexivity|].
    split; [reflexivity|]. split; [|discriminate].
    intros _. exists (message e). now split.
  - unfold Agent.bind at 1. unfold Agent.lift at 1.
    rewrite (get_property_field _ "usd" Hentry).
    eexists _, _. split; [reflexivity|]. split; [reflexivity|].
    split; [reflexivity|]. split; [discriminate|].
    intros _. reflexivity.
Qed.

Lemma price_read_from_the_answer_witness :
  exists response w',
    Agent.getSeiPrice SampleAgent.host_broke SampleAgent.start
      = (Returns response, w')
    /\ Agent.content response =
         "Error: Failed to fetch SEI price. "
         ++ "Cannot read properties of undefined (reading 'usd')".
Proof.
  destruct (price_read_from_the_answer SampleAgent.host_broke
              SampleAgent.start (VObj [ ("status", VObj []) ])
              eq_refl eq_refl)
    as (response & w' & Hrun & _ & _ & _ & _).
  exists response, w'. split; [exact Hrun|].
  vm_compute in Hrun. injection Hrun as <- _. reflexivity.
Defined.

(* ================================================================== *)
(** * Properties of the chat endpoint *)
(* ================================================================== *)

Import ChatSpec.

Lemma find_first (predicate : value -> outcome bool)
    (before after : list value) (item : value) :
  Forall (fun x => predicate x = Returns false) before ->
  predicate item = Returns true ->
  Chat.find predicate (before ++ item :: after) = Returns (Some item).
Proof.
  intros Hb Hi. induction Hb as [|x l Hx Hl IH]; cbn.
  - now rewrite Hi.
  - now rewrite Hx.
Qed.

Lemma find_none (predicate : value -> outcome bool) (items : list value) :
  Forall (fun x => predicate x = Returns false) items ->
  Chat.find predicate items = Returns None.
Proof.
  intros Hb. induction Hb as [|x l Hx Hl IH]; cbn; [reflexivity|].
  now rewrite Hx.
Qed.









Lemma fallbackResponse_truthy (h : Chat.Host) (msg : value) :
  truthy (VStr (Chat.fallbackResponse h msg)) = true.
Proof. reflexivity. Qed.

Lemma errorMessage_truthy (h : Chat.Host) (msg : value) :
  truthy (VStr (Chat.errorMessage h msg)) = true.
Proof. reflexivity. Qed.

(** What [start] leaves in a fresh stream, by cases on the agent's run
    and on the text found in its response. *)
Lemma start_text (h : Chat.Host) (msg response text : value) :
  Chat.agent h msg = Returns response ->
  Chat.responseText h response = Returns text ->
  truthy text = true ->
  Chat.start h msg fresh =
    (Returns tt,
     {| Chat.chunks := [ chunk h Chat.event_start;
                         chunk h (Chat.event_text text);
                         chunk h Chat.event_finish ];
        Chat.closed := true |}).
Proof.
  intros Hrun Htext Htruthy.
  unfold Chat.start, Chat.try_catch_finally, Chat.bind, Chat.pure,
    Chat.send, Chat.close.
  cbn. rewrite Hrun, Htext, Htruthy. reflexivity.
Qed.

Lemma start_fallback (h : Chat.Host) (msg response text : value) :
  Chat.agent h msg = Returns response ->
  Chat.responseText h response = Returns text ->
  truthy text = false ->
  Chat.start h msg fresh =
    (Returns tt,
     {| Chat.chunks :=
          [ chunk h Chat.event_start;
            chunk h (Chat.event_text (VStr (Chat.fallbackResponse h msg)));
            chunk h Chat.event_finish ];
        Chat.closed := true |}).
Proof.
  intros Hrun Htext Htruthy.
  unfold Chat.start, Chat.try_catch_finally, Chat.bind, Chat.pure,
    Chat.send, Chat.close.
  cbn. rewrite Hrun, Htext, Htruthy. reflexivity.
Qed.

Lemma start_error (h : Chat.Host) (msg : value) :
  (exists e, Chat.agent h msg = Throws e)
  \/ (exists response e,
        Chat.agent h msg = Returns response
        /\ Chat.responseText h response = Throws e) ->
  Chat.start h msg fresh =
    (Returns tt,
     {| Chat.chunks :=
          [ chunk h Chat.event_start;
            chunk h (Chat.event_text (VStr (Chat.errorMessage h msg)));
            chunk h Chat.event_finish ];
        Chat.closed := true |}).
Proof.
  intros [(e & Hrun)|(response & e & Hrun & Htext)];
    unfold Chat.start, Chat.try_catch_finally, Chat.bind, Chat.pure,
      Chat.send, Chat.close; cbn; rewrite Hrun; [reflexivity|].
  rewrite Htext. reflexivity.
Qed.

(** X20. Whatever the agent does, [start] returns, the stream is closed,
    and it holds exactly three events: [start], one [text] and [finish].
    The text is never empty: it is the text found in the agent's response,
    the fallback when none was found, or the error message when the agent
    or the reading of its response threw; nothing of the error itself is
    streamed. *)
Theorem stream_is_start_text_finish (h : Chat.Host) (msg : value) :
  exists text : value,
    Chat.start h msg fresh =
      (Returns tt,
       {| Chat.chunks := [ chunk h Chat.event_start;
                           chunk h (Chat.event_text text);
                           chunk h Chat.event_finish ];
          Chat.closed := true |})
    /\ truthy text = true
    /\ ((exists response,
           Chat.agent h msg = Returns response
           /\ Chat.responseText h response = Returns text)
        \/ ((exists response empty,
               Chat.agent h msg = Returns response
               /\ Chat.responseText h response = Returns empty
               /\ truthy empty = false)
            /\ text = VStr (Chat.fallbackResponse h msg))
        \/ (((exists e, Chat.agent h msg = Throws e)
             \/ (exists response e,
                   Chat.agent h msg = Returns response
                   /\ Chat.responseText h response = Throws e))
            /\ text = VStr (Chat.errorMessage h msg))).
Proof.
  destruct (Chat.agent h msg) as [response|e] eqn:Hrun.
  - destruct (Chat.responseText h response) as [text|e] eqn:Htext.
    + destruct (truthy text) eqn:Htruthy.
      * exists text. split; [now apply (start_text h msg response)|].
        split; [exact Htruthy|]. left. now exists response.
      * exists (VStr (Chat.fallbackResponse h msg)).
        split; [now apply (start_fallback h msg response text)|].
        split; [apply fallbackResponse_truthy|].
        right. left. split; [|reflexivity]. now exists response, text.
    + exists (VStr (Chat.errorMessage h msg)).
      split; [apply start_error; right; now exists response, e|].
      split; [apply errorMessage_truthy|].
      right. right. split; [|reflexivity]. right. now exists response, e.
  - exists (VStr (Chat.errorMessage h msg)).
    split; [apply start_error; left; now exists e|].
    split; [apply errorMessage_truthy|].
    right. right. split; [|reflexivity]. left. now exists e.
Qed.






Lemma is_weather_result_content (item : value) :
  Chat.is_weather_result item = Returns true ->
  Chat.data_content item = Returns (field (field item "data") "content")
  /\ truthy (field (field item "data") "content") = true.
Proof.
  unfold Chat.is_weather_result, Chat.data_content, Chat.optional_property.
  intros H.
  destruct item; cbn in H |- *; try discriminate H.
  destruct (strict_equal (own_property props "name") (VStr "getWeather"));
    [|discriminate H].
  destruct (own_property props "data") as [| | | | | |inner];
    cbn in H |- *; try discriminate H.
  split; [reflexivity|]. now injection H.
Qed.

(** X22. Without a text output, the weather comes first. When no item of
    the agent's response is a text output and one is a [getWeather]
    result with a content, the text event carries the content of the
    first such result, also when other action results with a content come
    before it. *)
Theorem weather_result_is_preferred
    (h : Chat.Host) (msg : value)
    (before after : list value) (item : value) :
  Chat.agent h msg = Returns (VArr (before ++ item :: after)) ->
  Forall (fun x => Chat.is_text_output x = Returns false)
    (before ++ item :: after) ->
  Forall (fun x => Chat.is_weather_result x = Returns false) before ->
  Chat.is_weather_result item = Returns true ->
  snd (Chat.start h msg fresh) =
    {| Chat.chunks :=
         [ chunk h Chat.event_start;
           chunk h (Chat.event_text (field (field item "data") "content"));
           chunk h Chat.event_finish ];
       Chat.closed := true |}.
Proof.
  intros Hrun Hnone Hbefore Hitem.
  destruct (is_weather_result_content item Hitem) as [Hget Htruthy].
  rewrite (start_text h msg (VArr (before ++ item :: after))
             (field (field item "data") "content") Hrun);
    [reflexivity| |exact Htruthy].
  unfold Chat.responseText.
  rewrite (find_none Chat.is_text_output _ Hnone). cbn [Chat.and_then].
  rewrite (find_first Chat.is_weather_result before after item Hbefore Hitem).
  cbn [Chat.and_then]. exact Hget.
Qed.

Lemma weather_result_is_preferred_witness :
  snd (Chat.start
         (SampleChat.host
            (VArr [ SampleChat.action_result "getBalance" "Balance: 5";
                    SampleChat.action_result "getWeather" "Sunny" ]))
         (VStr "weather?") fresh)
  = {| Chat.chunks :=
         [ chunk (SampleChat.host VNull) Chat.event_start;
           chunk (SampleChat.host VNull) (Chat.event_text (VStr "Sunny"));
           chunk (SampleChat.host VNull) Chat.event_finish ];
       Chat.closed := true |}.
Proof.
  refine (weather_result_is_preferred
    (SampleChat.host
       (VArr [ SampleChat.action_result "getBalance" "Balance: 5";
               SampleChat.action_result "getWeather" "Sunny" ]))
    (VStr "weather?")
    [ SampleChat.action_result "getBalance" "Balance: 5" ]
    []
    (SampleChat.action_result "getWeather" "Sunny") _ _ _ _).
  - reflexivity.
  - now repeat constructor.
  - now repeat constructor.
  - reflexivity.
Defined.
